(** * Ubuntu Image Fetcher: a shallow embedding of [main.py]

    The program downloads images named by user-supplied URLs into a local
    directory.  Each download validates the response headers, compares the
    SHA-256 digest of the body with the digests of the files already in the
    directory, derives a file name and writes the bytes.

    The development is organised as the program is:

    - [Py]       the Python built-ins the source calls ([str] methods, [int],
                 true division, [str.format] of a float), with exceptions as
                 an explicit result type;
    - [Hashlib]  [hashlib.sha256] (FIPS 180-4) with [hexdigest];
    - [Urllib]   [urllib.parse.urlparse] restricted to the [path] field, and
                 [os.path.basename] / [os.path.join];
    - [Os]       the file system as a finite map from directory paths to
                 listings, and the state-and-exception monad the fetcher
                 runs in;
    - [Requests] the response object and [raise_for_status];
    - the functions of [main.py], under their own names;
    - the properties of the specification.

    Conventions.  A Python [str] is a Rocq [string] holding its UTF-8 code
    units; every test the program makes on text compares against ASCII
    delimiters, which UTF-8 preserves.  [bytes] is [list byte].  Python's
    unbounded [int] is [Z]. *)

From Stdlib Require Import ZArith List Ascii String Lia Bool DecimalString.
From Stdlib.Strings Require Import Byte.
From stdpp Require Import base option list strings gmap fin_maps.

(** ** Python built-ins *)

Module Py.

(** Exceptions that can reach the handlers of [download_image].  All of
    them derive from [Exception]; [str(e)] is the carried text.  The
    classes of [requests.exceptions] derive from [RequestException],
    which itself derives from [IOError]. *)
Inductive exn : Type :=
| Timeout (text : string)
| HTTPError (status_code : Z) (reason : string)
| ConnectionError (text : string)
| RequestException (text : string)
| OSError (text : string)
| ValueError (text : string)
| OverflowError (text : string)
| OtherException (text : string).

(** The outcome of evaluating a Python expression. *)
Inductive result (A : Type) : Type :=
| Return (a : A)
| Raise (e : exn).
Arguments Return {A} a.
Arguments Raise {A} e.

Definition rbind {A B} (r : result A) (k : A -> result B) : result B :=
  match r with
  | Return a => k a
  | Raise e => Raise e
  end.

(** *** Characters and [str] methods *)

Definition code (c : ascii) : N := N_of_ascii c.

Definition is_ascii_upper (c : ascii) : bool :=
  ((65 <=? code c) && (code c <=? 90))%N.

Definition is_ascii_lower (c : ascii) : bool :=
  ((97 <=? code c) && (code c <=? 122))%N.

Definition is_digit (c : ascii) : bool :=
  ((48 <=? code c) && (code c <=? 57))%N.

Definition is_ascii_char (c : ascii) : bool := (code c <? 128)%N.

Definition lower_char (c : ascii) : ascii :=
  if is_ascii_upper c then ascii_of_N (code c + 32) else c.

(** The second code unit of an upper-case letter from U+00C0 to U+00DE
    (the multiplication sign U+00D7 apart), whose first code unit is
    [0xC3]; its lower-case form is 32 higher. *)
Definition is_latin1_upper_tail (c : ascii) : bool :=
  ((128 <=? code c) && (code c <=? 158) && negb (code c =? 151))%N.

(** [s.lower()], one code unit at a time; [after_c3] says that the code
    unit before was [0xC3].  Exact for the letters up to U+00FF, which is
    all a header value can hold.  Letters beyond are left as they are:
    none of them lowers to text in which an ASCII word appears that was
    not there before, so the tests the program makes on lowered text
    come out the same. *)
Fixpoint lower_from (after_c3 : bool) (s : string) : string :=
  match s with
  | EmptyString => EmptyString
  | String c t =>
      String (if after_c3 && is_latin1_upper_tail c then ascii_of_N (code c + 32)
              else lower_char c)
             (lower_from (code c =? 195)%N t)
  end.

Definition lower (s : string) : string := lower_from false s.

(** [s.startswith(p)] *)
Fixpoint startswith (s p : string) {struct p} : bool :=
  match p, s with
  | EmptyString, _ => true
  | String _ _, EmptyString => false
  | String a p', String b s' => Ascii.eqb a b && startswith s' p'
  end.

(** [p in s] *)
Fixpoint str_in (p s : string) : bool :=
  startswith s p ||
  match s with
  | EmptyString => false
  | String _ t => str_in p t
  end.

(** [c in s] for a single character *)
Fixpoint char_in (c : ascii) (s : string) : bool :=
  match s with
  | EmptyString => false
  | String b t => Ascii.eqb c b || char_in c t
  end.

(** [bool(s)]: a string is true when it is not empty. *)
Definition truthy (s : string) : bool :=
  match s with
  | EmptyString => false
  | String _ _ => true
  end.

(** [s.find(c)], [-1] when absent *)
Fixpoint find (c : ascii) (s : string) : Z :=
  match s with
  | EmptyString => -1
  | String b t =>
      if Ascii.eqb c b then 0
      else let i := find c t in if (i <? 0)%Z then -1 else (i + 1)%Z
  end.

(** [s.rfind(c)], [-1] when absent *)
Fixpoint rfind (c : ascii) (s : string) : Z :=
  match s with
  | EmptyString => -1
  | String b t =>
      let i := rfind c t in
      if (0 <=? i)%Z then (i + 1)%Z
      else if Ascii.eqb c b then 0 else -1
  end.

(** [s[i:]] and [s[:i]] for [0 <= i] *)
Fixpoint drop_str (n : nat) (s : string) : string :=
  match n, s with
  | O, _ => s
  | S _, EmptyString => EmptyString
  | S n', String _ t => drop_str n' t
  end.

Fixpoint take_str (n : nat) (s : string) : string :=
  match n, s with
  | O, _ => EmptyString
  | S _, EmptyString => EmptyString
  | S n', String c t => String c (take_str n' t)
  end.

Definition slice_from (s : string) (i : Z) : string := drop_str (Z.to_nat i) s.
Definition slice_to (s : string) (i : Z) : string := take_str (Z.to_nat i) s.

(** [s.find(c, start)] for [0 <= start] *)
Definition find_from (c : ascii) (s : string) (start : Z) : Z :=
  let i := find c (slice_from s start) in
  if (i <? 0)%Z then -1 else (start + i)%Z.

(** [s.lstrip(chars)] with the set of characters given as a predicate *)
Fixpoint lstrip (p : ascii -> bool) (s : string) : string :=
  match s with
  | EmptyString => EmptyString
  | String c t => if p c then lstrip p t else s
  end.

(** [s.replace(c, "")] *)
Fixpoint remove_char (p : ascii -> bool) (s : string) : string :=
  match s with
  | EmptyString => EmptyString
  | String c t => if p c then remove_char p t else String c (remove_char p t)
  end.

Fixpoint all_chars (p : ascii -> bool) (s : string) : bool :=
  match s with
  | EmptyString => true
  | String c t => p c && all_chars p t
  end.

(** *** [str(n)] for an [int] *)

Definition str_of_int (n : Z) : string := NilZero.string_of_int (Z.to_int n).

(** *** [int(s)] for a [str]

    Base 10: surrounding white space (that of C within ASCII, every
    white space beyond), an optional sign, then decimal digits in which
    single underscores may separate digits.  CPython refuses literals of
    more than 4300 digits ([sys.int_info.default_max_str_digits]).
    Decimal digits of other scripts, which [int] also accepts, are beyond
    U+00FF and are not read as digits here. *)

Definition is_c_space (c : ascii) : bool :=
  ((code c =? 32) || ((9 <=? code c) && (code c <=? 13)))%N.

(** The white space beyond ASCII, as UTF-8 code units: U+0085 and U+00A0
    take two, U+1680, U+2000 to U+200A, U+2028, U+2029, U+202F, U+205F
    and U+3000 take three. *)
Definition is_space2 (a b : ascii) : bool :=
  ((code a =? 194) && ((code b =? 133) || (code b =? 160)))%N.

Definition is_space3 (a b c : ascii) : bool :=
  (((code a =? 225) && (code b =? 154) && (code c =? 128))
   || ((code a =? 226) && (code b =? 128)
       && (((128 <=? code c) && (code c <=? 138))
           || (code c =? 168) || (code c =? 169) || (code c =? 175)))
   || ((code a =? 226) && (code b =? 129) && (code c =? 159))
   || ((code a =? 227) && (code b =? 128) && (code c =? 128)))%N.

(** Removes leading white space: the ASCII characters [p] accepts and the
    characters above. *)
Fixpoint lstrip_space (p : ascii -> bool) (s : string) : string :=
  match s with
  | EmptyString => EmptyString
  | String a t =>
      if p a then lstrip_space p t
      else
        match t with
        | String b t1 =>
            if is_space2 a b then lstrip_space p t1
            else
              match t1 with
              | String c t2 => if is_space3 a b c then lstrip_space p t2 else s
              | EmptyString => s
              end
        | EmptyString => s
        end
  end.

Fixpoint rev_append_str (s acc : string) : string :=
  match s with
  | EmptyString => acc
  | String c t => rev_append_str t (String c acc)
  end.

Definition rev_str (s : string) : string := rev_append_str s EmptyString.

(** The same from the end, on the reversed string. *)
Fixpoint lstrip_space_rev (p : ascii -> bool) (s : string) : string :=
  match s with
  | EmptyString => EmptyString
  | String a t =>
      if p a then lstrip_space_rev p t
      else
        match t with
        | String b t1 =>
            if is_space2 b a then lstrip_space_rev p t1
            else
              match t1 with
              | String c t2 => if is_space3 c b a then lstrip_space_rev p t2 else s
              | EmptyString => s
              end
        | EmptyString => s
        end
  end.

Definition rstrip_space (p : ascii -> bool) (s : string) : string :=
  rev_str (lstrip_space_rev p (rev_str s)).

Definition digit_value (c : ascii) : Z := Z.of_N (code c - 48).

(** Scans the digits: [prev] says whether the previous character was a
    digit; the result is the value and the number of digits read. *)
Fixpoint scan_digits (s : string) (prev : bool) (acc : Z) (n : nat)
  : option (Z * nat) :=
  match s with
  | EmptyString => if prev then Some (acc, n) else None
  | String c t =>
      if is_digit c then scan_digits t true (10 * acc + digit_value c)%Z (S n)
      else if Ascii.eqb c "_" then
             if prev then scan_digits t false acc n else None
      else None
  end.

Definition max_str_digits : nat := 4300.

(** [repr(s)]: single quotes, unless the text has a single quote and no
    double quote; the quote in use and the backslash are escaped, tab,
    newline and return are written with their letters, and the other
    characters that are not printable as [\xNN] or [\uNNNN].  Exact for
    the characters up to U+00FF and for the white space beyond; the other
    characters beyond are taken as printable. *)
Definition hex_char (n : N) : ascii :=
  if (n <? 10)%N then ascii_of_N (48 + n) else ascii_of_N (87 + n).

Definition hex_escape (n : N) : string :=
  String "\" (String "x" (String (hex_char (n / 16)) (String (hex_char (n mod 16)) ""))).

(** The escape of the character that the code units [a], [b], [c] encode. *)
Definition unicode_escape (a b c : ascii) : string :=
  let n := ((code a - 224) * 4096 + (code b - 128) * 64 + (code c - 128))%N in
  String "\" (String "u" (String (hex_char (n / 4096))
    (String (hex_char (n / 256 mod 16))
      (String (hex_char (n / 16 mod 16)) (String (hex_char (n mod 16)) ""))))).

Fixpoint repr_chars (quote : ascii) (s : string) : string :=
  match s with
  | EmptyString => EmptyString
  | String c t =>
      if Ascii.eqb c "\" || Ascii.eqb c quote then String "\" (String c (repr_chars quote t))
      else if (code c =? 9)%N then String "\" (String "t" (repr_chars quote t))
      else if (code c =? 10)%N then String "\" (String "n" (repr_chars quote t))
      else if (code c =? 13)%N then String "\" (String "r" (repr_chars quote t))
      else if ((code c <? 32) || (code c =? 127))%N
      then hex_escape (code c) +:+ repr_chars quote t
      else
        match t with
        | String d t1 =>
            if ((code c =? 194)
                && (((128 <=? code d) && (code d <=? 160)) || (code d =? 173)))%N
            then hex_escape (code d) +:+ repr_chars quote t1
            else
              match t1 with
              | String e t2 =>
                  if is_space3 c d e then unicode_escape c d e +:+ repr_chars quote t2
                  else String c (repr_chars quote t)
              | EmptyString => String c (repr_chars quote t)
              end
        | EmptyString => String c EmptyString
        end
  end.

Definition apostrophe : ascii := "'".
Definition double_quote : ascii := ascii_of_N 34.

Definition repr (s : string) : string :=
  let quote :=
    if char_in apostrophe s && negb (char_in double_quote s)
    then double_quote else apostrophe in
  String quote (repr_chars quote s +:+ String quote "").

(** The first [n] characters of [s]: a code unit from [0x80] to [0xBF]
    continues the character before it. *)
Fixpoint take_chars (n : nat) (s : string) : string :=
  match s with
  | EmptyString => EmptyString
  | String c t =>
      if ((128 <=? code c) && (code c <? 192))%N then String c (take_chars n t)
      else
        match n with
        | O => EmptyString
        | S m => String c (take_chars m t)
        end
  end.

(** The message shows at most 200 characters of the [repr]. *)
Definition invalid_literal (s : string) : exn :=
  ValueError ("invalid literal for int() with base 10: " +:+ take_chars 200 (repr s)).

Definition too_many_digits (n : nat) : exn :=
  ValueError ("Exceeds the limit (4300 digits) for integer string conversion: value has "
                +:+ str_of_int (Z.of_nat n)
                +:+ " digits; use sys.set_int_max_str_digits() to increase the limit").

Definition int_of_str (s : string) : result Z :=
  let body := rstrip_space is_c_space (lstrip_space is_c_space s) in
  let '(negative, digits) :=
    match body with
    | String "-" t => (true, t)
    | String "+" t => (false, t)
    | _ => (false, body)
    end in
  match scan_digits digits false 0%Z O with
  | None => Raise (invalid_literal s)
  | Some (v, n) =>
      if (max_str_digits <? n)%nat then Raise (too_many_digits n)
      else Return (if negative then (- v)%Z else v)
  end.

(** *** Floats

    The program only forms floats by dividing an [int] by a power of two
    ([1024] and [1024 * 1024]).  Such a binary64 value is the rational
    [fnum / 2 ^ fexp]: the correctly rounded quotient. *)

Record float : Type := mkfloat { fnum : Z; fexp : Z }.

(** Nearest integer to [a / b] for [0 < b], ties to even. *)
Definition round_half_even (a b : Z) : Z :=
  let q := (a / b)%Z in
  let r := (a mod b)%Z in
  if (2 * r <? b)%Z then q
  else if (b <? 2 * r)%Z then (q + 1)%Z
  else if Z.even q then q else (q + 1)%Z.

Definition bit_length (n : Z) : Z :=
  if (n =? 0)%Z then 0%Z else (Z.log2 (Z.abs n) + 1)%Z.

(** Rounds an integer to 53 significant bits, ties to even. *)
Definition round53 (n : Z) : Z :=
  let l := bit_length n in
  if (l <=? 53)%Z then n
  else let e := (l - 53)%Z in
       (Z.sgn n * (round_half_even (Z.abs n) (2 ^ e) * 2 ^ e))%Z.

(** [n / 2 ** k] (true division of ints).  The quotient is rounded to
    binary64; CPython raises [OverflowError] when it does not fit. *)
Definition truediv_pow2 (n k : Z) : result float :=
  let m := round53 n in
  if (2 ^ (1024 + k) <=? Z.abs m)%Z
  then Raise (OverflowError "integer division result too large for a float")
  else Return (mkfloat m k).

(** The least magnitude of an [int] for which [n / 2 ** k] no longer fits
    binary64: from there on the quotient rounds to [2 ** 1024]. *)
Definition float_bound (k : Z) : Z := (2 ^ (1024 + k) - 2 ^ (970 + k))%Z.

(** [x > c] for a float [x] and an [int] constant [c] *)
Definition float_gt (x : float) (c : Z) : bool :=
  (c * 2 ^ fexp x <? fnum x)%Z.

(** [f"{x:.1f}"]: one digit after the point, the exact value rounded to
    the nearest tenth, ties to even. *)
Definition format_1f (x : float) : string :=
  let t := round_half_even (10 * Z.abs (fnum x)) (2 ^ fexp x) in
  (if (fnum x <? 0)%Z then "-" else "")
    +:+ str_of_int (t / 10) +:+ "." +:+ str_of_int (t mod 10).

End Py.

(** ** [hashlib.sha256] *)

Module Hashlib.
Local Open Scope Z_scope.

(** SHA-256 as in FIPS 180-4, on 32-bit words held in [Z]. *)

Definition wrap32 (x : Z) : Z := x mod 2 ^ 32.
Definition add32 (x y : Z) : Z := wrap32 (x + y).
Definition rotr (n x : Z) : Z :=
  Z.lor (Z.shiftr x n) (wrap32 (Z.shiftl x (32 - n))).
Definition not32 (x : Z) : Z := Z.lxor x 0xffffffff.

Definition Ch (x y z : Z) : Z := Z.lxor (Z.land x y) (Z.land (not32 x) z).
Definition Maj (x y z : Z) : Z :=
  Z.lxor (Z.lxor (Z.land x y) (Z.land x z)) (Z.land y z).
Definition Sigma0 (x : Z) : Z := Z.lxor (Z.lxor (rotr 2 x) (rotr 13 x)) (rotr 22 x).
Definition Sigma1 (x : Z) : Z := Z.lxor (Z.lxor (rotr 6 x) (rotr 11 x)) (rotr 25 x).
Definition sigma0 (x : Z) : Z := Z.lxor (Z.lxor (rotr 7 x) (rotr 18 x)) (Z.shiftr x 3).
Definition sigma1 (x : Z) : Z := Z.lxor (Z.lxor (rotr 17 x) (rotr 19 x)) (Z.shiftr x 10).

(** The constants are fractional bits of roots of the first primes:
    the round constants come from the cube roots of the first sixty-four
    primes, the initial state from the square roots of the first eight. *)
Definition is_prime (n : Z) : bool :=
  forallb (fun d => negb (n mod d =? 0)) (map Z.of_nat (seq 2 (Z.to_nat n - 2))).

Definition primes64 : list Z :=
  firstn 64 (filter is_prime (map Z.of_nat (seq 2 310))).

(** The integer cube root below [2 ^ bits], found bit by bit. *)
Fixpoint cube_root (bits : nat) (n acc : Z) : Z :=
  match bits with
  | O => acc
  | S b =>
      let c := acc + 2 ^ Z.of_nat b in
      cube_root b n (if c * c * c <=? n then c else acc)
  end.

Definition K256 : list Z :=
  Eval vm_compute in map (fun p => wrap32 (cube_root 40 (p * 2 ^ 96) 0)) primes64.

Definition H0 : list Z :=
  Eval vm_compute in map (fun p => wrap32 (Z.sqrt (p * 2 ^ 64))) (firstn 8 primes64).

Definition byte_val (b : byte) : Z := Z.of_N (Byte.to_N b).

(** Padding: a [1] bit, zeros up to 56 modulo 64 bytes, then the length
    in bits as a 64-bit big-endian integer. *)
Definition be_bytes (n : nat) (x : Z) : list Z :=
  map (fun i => Z.shiftr x (8 * Z.of_nat i) mod 256) (rev (seq 0 n)).

Definition pad (msg : list byte) : list Z :=
  let len := Z.of_nat (length msg) in
  map byte_val msg ++ [0x80]
    ++ repeat 0 (Z.to_nat ((55 - len) mod 64))
    ++ be_bytes 8 (8 * len).

(** Big-endian words of a byte sequence whose length is a multiple of 4. *)
Fixpoint words (bs : list Z) : list Z :=
  match bs with
  | a :: b :: c :: d :: rest =>
      (Z.shiftl a 24 + Z.shiftl b 16 + Z.shiftl c 8 + d) :: words rest
  | _ => []
  end.

(** The message schedule: [win] holds the last sixteen words, oldest
    first; each step yields the next word. *)
Fixpoint schedule (n : nat) (win : list Z) : list Z :=
  match n with
  | O => []
  | S n' =>
      let w := add32 (add32 (sigma1 (nth 14 win 0)) (nth 9 win 0))
                     (add32 (sigma0 (nth 1 win 0)) (nth 0 win 0)) in
      w :: schedule n' (tl win ++ [w])
  end.

Definition round (st : list Z) (kw : Z * Z) : list Z :=
  match st with
  | [a; b; c; d; e; f; g; h] =>
      let t1 := add32 (add32 (add32 h (Sigma1 e)) (add32 (Ch e f g) (fst kw))) (snd kw) in
      let t2 := add32 (Sigma0 a) (Maj a b c) in
      [add32 t1 t2; a; b; c; add32 d t1; e; f; g]
  | _ => st
  end.

Definition compress (h : list Z) (block : list Z) : list Z :=
  let w := block ++ schedule 48 block in
  let st := fold_left round (combine K256 w) h in
  map (fun p => add32 (fst p) (snd p)) (combine h st).

(** Processes the padded message sixteen words at a time. *)
Fixpoint blocks (fuel : nat) (ws : list Z) (h : list Z) : list Z :=
  match fuel, ws with
  | S fuel', _ :: _ => blocks fuel' (skipn 16 ws) (compress h (firstn 16 ws))
  | _, _ => h
  end.

Definition sha256_words (msg : list byte) : list Z :=
  let ws := words (pad msg) in
  blocks (length ws) ws H0.

Definition hex_digit (n : Z) : ascii :=
  if n <? 10 then ascii_of_N (Z.to_N (48 + n)) else ascii_of_N (Z.to_N (87 + n)).

Definition hex_word (x : Z) : string :=
  string_of_list_ascii
    (map (fun i => hex_digit (Z.shiftr x (4 * Z.of_nat i) mod 16)) (rev (seq 0 8))).

(** [hashlib.sha256(data).hexdigest()] *)
Definition sha256_hexdigest (msg : list byte) : string :=
  fold_right (fun w s => hex_word w +:+ s) "" (sha256_words msg).

(** The hash object: [update] feeds bytes, [hexdigest] hashes everything
    fed so far. *)
Definition hasher : Type := list byte.
Definition sha256_new : hasher := [].
Definition update (h : hasher) (block : list byte) : hasher := h ++ block.
Definition hexdigest (h : hasher) : string := sha256_hexdigest h.

End Hashlib.

(** ** The interpreter and its libraries as parameters

    Four facts about a run are fixed outside the program: the hash of a
    [str] (salted per process), two validity checks that [urllib.parse]
    delegates to [ipaddress] and [unicodedata], and whether a write to an
    open file goes through.  [write_fault directory name data] is [None]
    when all of [data] reaches the file, and [Some (stored, text)] when
    the write fails with [OSError(text)] (a full disk, a quota) leaving
    [stored] in the file. *)

Record runtime : Type := mkruntime {
  hash_str : string -> Z;
  bracketed_netloc_ok : string -> bool;
  nfkc_netloc_ok : string -> bool;
  write_fault : string -> string -> list byte -> option (list byte * string)
}.

(** ** [urllib.parse.urlparse] and [os.path] *)

Module Urllib.
Import Py.
Local Open Scope Z_scope.

Definition is_c0_control_or_space (c : ascii) : bool := (code c <=? 32)%N.

Definition is_unsafe_url_byte (c : ascii) : bool :=
  ((code c =? 9) || (code c =? 13) || (code c =? 10))%N.

Definition is_ascii_alpha (c : ascii) : bool :=
  is_ascii_upper c || is_ascii_lower c.

Definition is_scheme_char (c : ascii) : bool :=
  is_ascii_alpha c || is_digit c
  || Ascii.eqb c "+" || Ascii.eqb c "-" || Ascii.eqb c ".".

Definition uses_params : list string :=
  [ ""; "ftp"; "hdl"; "prospero"; "http"; "imap"; "https"; "shttp";
    "rtsp"; "rtspu"; "sip"; "sips"; "mms"; "sftp"; "tel" ].

Definition str_elem (s : string) (l : list string) : bool :=
  existsb (String.eqb s) l.

Definition first_char_is (p : ascii -> bool) (s : string) : bool :=
  match s with
  | EmptyString => false
  | String c _ => p c
  end.

(** [url[i:j]] *)
Definition slice (s : string) (i j : Z) : string :=
  slice_to (slice_from s i) (j - i).

Definition str_len (s : string) : Z := Z.of_nat (String.length s).

(** [_splitnetloc(url, start)] *)
Definition splitnetloc (url : string) (start : Z) : string * string :=
  let delim :=
    fold_left
      (fun delim c =>
         let wdelim := find_from c url start in
         if 0 <=? wdelim then Z.min delim wdelim else delim)
      [ "/"%char; "?"%char; "#"%char ] (str_len url) in
  (slice url start delim, slice_from url delim).

(** [_splitparams(url)], first component; the caller has checked that
    [";"] occurs in [url]. *)
Definition splitparams (url : string) : string :=
  if char_in "/" url then
    let i := find_from ";" url (rfind "/" url) in
    if i <? 0 then url else slice_to url i
  else slice_to url (find ";" url).

(** [url.split(c, 1)[0]] when [c] occurs in [url] *)
Definition before (c : ascii) (url : string) : string :=
  if char_in c url then slice_to url (find c url) else url.

Section WithRuntime.
Context (rt : runtime).

(** [urlsplit(url)]: scheme, netloc and path of the result. *)
Definition urlsplit (url : string) : result (string * string * string) :=
  let url := lstrip is_c0_control_or_space url in
  let url := remove_char is_unsafe_url_byte url in
  let i := find ":" url in
  let '(scheme, url) :=
    if (0 <? i) && first_char_is is_ascii_alpha url
       && all_chars is_scheme_char (slice_to url i)
    then (lower (slice_to url i), slice_from url (i + 1))
    else ("", url) in
  rbind
    (if startswith url "//" then
       let '(netloc, rest) := splitnetloc url 2 in
       if (char_in "[" netloc && negb (char_in "]" netloc))
          || (char_in "]" netloc && negb (char_in "[" netloc))
       then Raise (ValueError "Invalid IPv6 URL")
       else if char_in "[" netloc && char_in "]" netloc
               && negb (bracketed_netloc_ok rt netloc)
       then Raise (ValueError "Invalid IPv6 URL")
       else Return (netloc, rest)
     else Return ("", url))
    (fun '(netloc, url) =>
       let url := before "#" url in
       let url := before "?" url in
       if truthy netloc && negb (all_chars is_ascii_char netloc)
          && negb (nfkc_netloc_ok rt netloc)
       then Raise (ValueError ("netloc '" +:+ netloc
                                 +:+ "' contains invalid characters under NFKC normalization"))
       else Return (scheme, netloc, url)).

(** [urlparse(url).path] *)
Definition urlparse_path (url : string) : result string :=
  rbind (urlsplit url)
    (fun '(scheme, _, url) =>
       if str_elem scheme uses_params && char_in ";" url
       then Return (splitparams url)
       else Return url).
End WithRuntime.

(** [os.path.basename(p)] *)
Definition basename (p : string) : string :=
  let i := rfind "/" p + 1 in
  slice_from p i.

Fixpoint endswith_char (c : ascii) (s : string) : bool :=
  match s with
  | EmptyString => false
  | String b EmptyString => Ascii.eqb c b
  | String _ t => endswith_char c t
  end.

(** [os.path.join(a, b)] *)
Definition path_join (a b : string) : string :=
  if startswith b "/" then b
  else if negb (truthy a) || endswith_char "/" a then a +:+ b
  else a +:+ "/" +:+ b.

End Urllib.

(** ** The file system and the monad of effects *)

Module Os.
Import Py.

(** What a name inside a directory denotes: a regular file with its
    bytes, or something [os.path.isfile] answers [False] for. *)
Inductive node : Type :=
| RegularFile (data : list byte)
| Subdirectory.

(** A directory listing, in the order [os.listdir] returns it. *)
Definition listing : Type := list (string * node).

(** What a directory path denotes when it exists. *)
Inductive dirent : Type :=
| Dir (entries : listing)
| NotDir.

(** The file system maps the paths used as [directory] to what they
    denote; distinct keys are distinct, unnested directories.  The
    process may read and write whatever it reaches, and the paths of
    directories are within the limits of the file system; the limit on
    the length of a file name is checked where a file is opened for
    writing. *)
Abbreviation filesystem := (gmap string dirent).

(** Computations that read and write the file system and may raise. *)
Definition M (A : Type) : Type := filesystem -> result A * filesystem.

Definition ret {A} (a : A) : M A := fun fs => (Return a, fs).

Definition bind {A B} (m : M A) (k : A -> M B) : M B :=
  fun fs =>
    match m fs with
    | (Return a, fs') => k a fs'
    | (Raise e, fs') => (Raise e, fs')
    end.

Definition raise {A} (e : exn) : M A := fun fs => (Raise e, fs).

(** A pure, possibly raising, computation run as a step. *)
Definition lift {A} (r : result A) : M A := fun fs => (r, fs).

(** [try: body except Exception as e: handler(e)] *)
Definition try_except {A} (body : M A) (handler : exn -> M A) : M A :=
  fun fs =>
    match body fs with
    | (Return a, fs') => (Return a, fs')
    | (Raise e, fs') => handler e fs'
    end.

Fixpoint lookup_entry (name : string) (l : listing) : option node :=
  match l with
  | [] => None
  | (n, nd) :: rest => if String.eqb n name then Some nd else lookup_entry name rest
  end.

(** Creating or truncating [name]: an existing entry keeps its place, a
    new one goes last. *)
Fixpoint write_entry (name : string) (data : list byte) (l : listing) : listing :=
  match l with
  | [] => [(name, RegularFile data)]
  | (n, nd) :: rest =>
      if String.eqb n name then (n, RegularFile data) :: rest
      else (n, nd) :: write_entry name data rest
  end.

Definition errno (code what path : string) : exn :=
  OSError ("[Errno " +:+ code +:+ "] " +:+ what +:+ ": " +:+ repr path).

(** [os.makedirs(directory, exist_ok=True)] *)
Definition makedirs (directory : string) : M unit :=
  fun fs =>
    match fs !! directory with
    | Some (Dir _) => (Return tt, fs)
    | Some NotDir => (Raise (errno "17" "File exists" directory), fs)
    | None =>
        if truthy directory then (Return tt, <[directory := Dir []]> fs)
        else (Raise (errno "2" "No such file or directory" directory), fs)
    end.

(** [os.path.exists(directory)] *)
Definition path_exists (directory : string) : M bool :=
  fun fs => (Return (bool_decide (is_Some (fs !! directory))), fs).

(** [os.listdir(directory)] *)
Definition listdir (directory : string) : M (list string) :=
  fun fs =>
    match fs !! directory with
    | Some (Dir entries) => (Return (map fst entries), fs)
    | Some NotDir => (Raise (errno "20" "Not a directory" directory), fs)
    | None => (Raise (errno "2" "No such file or directory" directory), fs)
    end.

Definition entry_at (fs : filesystem) (directory name : string) : option node :=
  match fs !! directory with
  | Some (Dir entries) => lookup_entry name entries
  | _ => None
  end.

(** [os.path.isfile(os.path.join(directory, name))] *)
Definition path_isfile (directory name : string) : M bool :=
  fun fs =>
    match entry_at fs directory name with
    | Some (RegularFile _) => (Return true, fs)
    | _ => (Return false, fs)
    end.

(** [open(os.path.join(directory, name), "rb")], read to the end *)
Definition open_rb (directory name : string) : M (list byte) :=
  fun fs =>
    let path := Urllib.path_join directory name in
    match entry_at fs directory name with
    | Some (RegularFile data) => (Return data, fs)
    | Some Subdirectory => (Raise (errno "21" "Is a directory" path), fs)
    | None => (Raise (errno "2" "No such file or directory" path), fs)
    end.

Definition is_nul (c : ascii) : bool := (code c =? 0)%N.

(** The longest name a directory entry can have, in bytes. *)
Definition name_max : nat := 255.

(** [with open(os.path.join(directory, name), "wb") as f: f.write(data)].
    [open] fails, and changes nothing, on a NUL in the name, a missing
    directory, a name that denotes a directory, and a name of more than
    255 bytes; otherwise it creates or truncates the file.  The write
    then either stores all of [data] or, as [write_fault] says, fails
    leaving part of it; the exception leaves the [with] block after the
    file is closed. *)
Definition open_wb_write (rt : runtime) (directory name : string) (data : list byte)
  : M unit :=
  fun fs =>
    let path := Urllib.path_join directory name in
    if negb (all_chars (fun c => negb (is_nul c)) name)
    then (Raise (ValueError "embedded null byte"), fs)
    else
      match fs !! directory with
      | Some (Dir entries) =>
          if String.eqb name "." || String.eqb name ".."
          then (Raise (errno "21" "Is a directory" path), fs)
          else
            match lookup_entry name entries with
            | Some Subdirectory => (Raise (errno "21" "Is a directory" path), fs)
            | _ =>
                if (name_max <? String.length name)%nat
                then (Raise (errno "36" "File name too long" path), fs)
                else
                  match write_fault rt directory name data with
                  | None =>
                      (Return tt, <[directory := Dir (write_entry name data entries)]> fs)
                  | Some (stored, text) =>
                      (Raise (OSError text),
                       <[directory := Dir (write_entry name stored entries)]> fs)
                  end
            end
      | Some NotDir => (Raise (errno "20" "Not a directory" path), fs)
      | None => (Raise (errno "2" "No such file or directory" path), fs)
      end.

End Os.

(** ** [requests] *)

Module Requests.
Import Py.
Local Open Scope Z_scope.

(** A response as [requests.get(..., stream=True)] returns it: status
    line and headers are in, the body is read when [content] is first
    used, which can itself fail. *)
Record response : Type := mkresponse {
  status_code : Z;
  reason : string;
  headers : list (string * string);
  content : result (list byte)
}.

(** [response.headers.get(key)]: header names compare without case. *)
Fixpoint headers_lookup (key : string) (hs : list (string * string)) : option string :=
  match hs with
  | [] => None
  | (k, v) :: rest =>
      if String.eqb (lower k) (lower key) then Some v else headers_lookup key rest
  end.

Definition headers_get (r : response) (key : string) : option string :=
  headers_lookup key (headers r).

(** [response.raise_for_status()] *)
Definition raise_for_status (r : response) : result unit :=
  if (400 <=? status_code r) && (status_code r <? 600)
  then Raise (HTTPError (status_code r) (reason r))
  else Return tt.

End Requests.

(** ** The program: [main.py] *)

Declare Scope fetch_scope.
Delimit Scope fetch_scope with fetch.

Notation "x ← m ; k" := (Os.bind m (fun x => k))
  (at level 20, m at level 100, k at level 200, only parsing) : fetch_scope.
Notation "' pat ← m ; k" := (Os.bind m (fun x => match x with pat => k end))
  (at level 20, pat pattern, m at level 100, k at level 200, only parsing) : fetch_scope.

Section Fetcher.
Import Py Hashlib Urllib Os Requests.
Local Open Scope fetch_scope.

(** The interpreter, and the network as [requests.get] sees it: for each
    URL either a response or the exception the call raises. *)
Context (rt : runtime).
Context (requests_get : string -> result response).

Definition block_size : nat := 4096.

(** The loop [for byte_block in iter(lambda: f.read(4096), b""):
    sha256_hash.update(byte_block)] over the unread part of the file. *)
Fixpoint read_blocks (fuel : nat) (unread : list byte) (sha256_hash : hasher) : hasher :=
  match fuel with
  | O => sha256_hash
  | S fuel' =>
      match firstn block_size unread with
      | [] => sha256_hash
      | byte_block =>
          read_blocks fuel' (skipn block_size unread) (update sha256_hash byte_block)
      end
  end.

(** [get_file_hash(os.path.join(directory, filename))] *)
Definition get_file_hash (directory filename : string) : M string :=
  data ← open_rb directory filename;
  ret (hexdigest (read_blocks (S (length data)) data sha256_new)).

(** The loop of [is_duplicate] over the names [os.listdir] returned. *)
Fixpoint scan_directory (content_hash directory : string) (names : list string)
  : M (bool * option string) :=
  match names with
  | [] => ret (false, None)
  | filename :: rest =>
      isfile ← path_isfile directory filename;
      if isfile : bool then
        existing_hash ← get_file_hash directory filename;
        if String.eqb existing_hash content_hash
        then ret (true, Some filename)
        else scan_directory content_hash directory rest
      else scan_directory content_hash directory rest
  end.

Definition is_duplicate (content : list byte) (directory : string)
  : M (bool * option string) :=
  let content_hash := sha256_hexdigest content in
  present ← path_exists directory;
  if negb present then ret (false, None)
  else
    names ← listdir directory;
    scan_directory content_hash directory names.

Definition size_limit_mb : Z := 50.

Definition validate_image_headers (response : response) : result (bool * string) :=
  let content_type := lower (default "" (headers_get response "Content-Type")) in
  let content_length := headers_get response "Content-Length" in
  if negb (startswith content_type "image/")
  then Return (false, "Content-Type '" +:+ content_type +:+ "' is not an image")
  else
    match content_length with
    | Some cl =>
        if truthy cl then
          rbind (int_of_str cl) (fun n =>
          rbind (truediv_pow2 n 20) (fun size_mb =>
          if float_gt size_mb size_limit_mb
          then Return (false, "File size (" +:+ format_1f size_mb
                                +:+ "MB) exceeds safety limit of 50MB")
          else Return (true, "Valid image headers")))
        else Return (true, "Valid image headers")
    | None => Return (true, "Valid image headers")
    end.

Definition mime_to_ext : list (string * string) :=
  [ ("image/jpeg", ".jpg"); ("image/png", ".png"); ("image/gif", ".gif");
    ("image/webp", ".webp"); ("image/svg+xml", ".svg"); ("image/bmp", ".bmp") ].

(** [d.get(key, default)] on a dict literal *)
Fixpoint dict_get (d : list (string * string)) (key default : string) : string :=
  match d with
  | [] => default
  | (k, v) :: rest => if String.eqb k key then v else dict_get rest key default
  end.

Definition get_filename_from_url (url : string) (content_type : option string)
  : result string :=
  rbind (urlparse_path rt url) (fun path =>
  let filename := basename path in
  if negb (truthy filename) || negb (char_in "." filename) then
    let extension :=
      match content_type with
      | Some ct => if truthy ct then dict_get mime_to_ext (lower ct) ".jpg" else ".jpg"
      | None => ".jpg"
      end in
    Return ("downloaded_image_" +:+ str_of_int (hash_str rt url mod 10000) +:+ extension)
  else Return filename).

Definition newline : string := String (ascii_of_N 10) "".

(** The body of the [try] block of [download_image]. *)
Definition download_image_body (url directory : string) (check_duplicates : bool)
  : M (bool * string) :=
  _ ← makedirs directory;
  response ← lift (requests_get url);
  _ ← lift (raise_for_status response);
  '(is_valid, validation_msg) ← lift (validate_image_headers response);
  if negb is_valid then ret (false, "✗ Validation failed: " +:+ validation_msg)
  else
    content ← lift (content response);
    '(is_dup, dup_filename) ←
       (if check_duplicates then is_duplicate content directory
        else ret (false, None));
    if is_dup : bool then
      ret (false, "⚠ Image already exists as: " +:+ default "None" dup_filename
                    +:+ " (duplicate skipped)")
    else
      let content_type := headers_get response "Content-Type" in
      filename ← lift (get_filename_from_url url content_type);
      let filepath := path_join directory filename in
      _ ← open_wb_write rt directory filename content;
      file_size ← lift (truediv_pow2 (Z.of_nat (length content)) 10);
      ret (true, "✓ Successfully fetched: " +:+ filename
                   +:+ " (" +:+ format_1f file_size +:+ " KB)" +:+ newline
                   +:+ "✓ Image saved to " +:+ filepath).

(** The [except] clauses, in the order they are written. *)
Definition download_image_handler (e : exn) : bool * string :=
  match e with
  | Timeout _ =>
      (false, "✗ Connection timeout: Server took too long to respond")
  | HTTPError status reason =>
      (false, "✗ HTTP error: " +:+ str_of_int status +:+ " - " +:+ reason)
  | ConnectionError _ =>
      (false, "✗ Connection error: Could not reach the server")
  | RequestException text =>
      (false, "✗ Request error: " +:+ text)
  | OSError text =>
      (false, "✗ File error: Could not save image - " +:+ text)
  | ValueError text | OverflowError text | OtherException text =>
      (false, "✗ Unexpected error: " +:+ text)
  end.

Definition download_image (url directory : string) (check_duplicates : bool)
  : M (bool * string) :=
  try_except (download_image_body url directory check_duplicates)
             (fun e => ret (download_image_handler e)).

(** *** The driver *)

Record tally : Type := mktally {
  success_count : nat;
  skip_count : nat;
  fail_count : nat
}.

Definition default_directory : string := "Fetched_Images".

(** The three-way branch at the end of the loop body of [main]. *)
Definition count_outcome (t : tally) (outcome : bool * string) : tally :=
  let '(success, message) := outcome in
  if success then
    mktally (S (success_count t)) (skip_count t) (fail_count t)
  else if str_in "duplicate" (lower message) then
    mktally (success_count t) (S (skip_count t)) (fail_count t)
  else
    mktally (success_count t) (skip_count t) (S (fail_count t)).

(** [for i, url in enumerate(urls, 1): ...] *)
Fixpoint main_loop (urls : list string) (t : tally) : M tally :=
  match urls with
  | [] => ret t
  | url :: rest =>
      outcome ← download_image url default_directory true;
      main_loop rest (count_outcome t outcome)
  end.

(** [main()] once the URLs have been read: nothing is done for an empty
    list, otherwise the tally of the summary line is returned. *)
Definition main (urls : list string) : M (option tally) :=
  match urls with
  | [] => ret None
  | _ => t ← main_loop urls (mktally 0 0 0) ; ret (Some t)
  end.

End Fetcher.

(** ** Vocabulary of the specification *)

Section Vocabulary.
Import Py Hashlib Urllib Os Requests.

(** The validator accepts, or rejects, a response. *)
Definition accepts (r : response) : Prop :=
  exists msg, validate_image_headers r = Return (true, msg).

Definition rejects (r : response) : Prop :=
  exists msg, validate_image_headers r = Return (false, msg).

(** The value of the Content-Type header, empty when there is none. *)
Definition content_type_of (r : response) : string :=
  default "" (headers_get r "Content-Type").

(** 50 MB, in bytes. *)
Definition size_limit_bytes : Z := 50 * 1024 * 1024.

(** No Content-Length, an empty one, or one that [int] converts to a
    length within the limit. *)
Definition declared_length_ok (r : response) : Prop :=
  match headers_get r "Content-Length" with
  | None => True
  | Some cl =>
      cl = "" \/
      exists n, int_of_str cl = Return n /\ (- float_bound 20 < n <= size_limit_bytes)%Z
  end.

(** The same response with another body. *)
Definition with_content (r : response) (body : result (list byte)) : response :=
  mkresponse (status_code r) (reason r) (headers r) body.

(** [name] is a regular file of [directory] whose digest is [digest]. *)
Definition file_has_digest (fs : filesystem) (directory digest name : string) : Prop :=
  exists data,
    entry_at fs directory name = Some (RegularFile data)
    /\ sha256_hexdigest data = digest.

(** The same, as the test the scan makes on each name. *)
Definition has_digest (fs : filesystem) (directory digest name : string) : bool :=
  match entry_at fs directory name with
  | Some (RegularFile data) => String.eqb (sha256_hexdigest data) digest
  | _ => false
  end.

(** The names [os.listdir] yields; none for a path that is no directory. *)
Definition listed (fs : filesystem) (directory : string) : list string :=
  match fs !! directory with
  | Some (Dir entries) => map fst entries
  | _ => []
  end.

(** Names are unique within every directory. *)
Definition names_unique (fs : filesystem) : Prop :=
  forall directory entries,
    fs !! directory = Some (Dir entries) -> NoDup (map fst entries).













(** An interpreter for the examples: every string hashes to the same
    number, the delegated netloc checks pass, and no write fails. *)
Definition example_runtime : runtime :=
  mkruntime (fun _ => 8317206194523)%Z (fun _ => true) (fun _ => true)
            (fun _ _ _ => None).

(** The same interpreter on a full disk: every file is created, and
    every write fails before storing a byte. *)
Definition full_disk_runtime : runtime :=
  mkruntime (fun _ => 8317206194523)%Z (fun _ => true) (fun _ => true)
            (fun _ _ _ => Some ([], "[Errno 28] No space left on device")).

(** A directory holding a subdirectory and two copies of the bytes "abc". *)
Definition example_directory : filesystem :=
  {[ "Fetched_Images" :=
       Dir [ ("notes", Subdirectory);
             ("cat.png", RegularFile (list_byte_of_string "abc"));
             ("copy.png", RegularFile (list_byte_of_string "abc")) ] ]}.

(** The file system once [directory] exists: created empty when the path
    was free, otherwise as it was. *)
Definition created (directory : string) (fs : filesystem) : filesystem :=
  match fs !! directory with
  | Some _ => fs
  | None => <[directory := Dir []]> fs
  end.

(** The message of a duplicate skip naming [filename]. *)
Definition duplicate_message (filename : string) : string :=
  "⚠ Image already exists as: " +:+ filename +:+ " (duplicate skipped)".

(** The driver's reading of an outcome. *)
Inductive verdict : Type := Success | DuplicateSkip | Failure.

Definition classify (outcome : bool * string) : verdict :=
  let t := count_outcome (mktally 0 0 0) outcome in
  if Nat.eqb (success_count t) 1 then Success
  else if Nat.eqb (skip_count t) 1 then DuplicateSkip
  else Failure.

Definition tally_total (t : tally) : nat :=
  (success_count t + skip_count t + fail_count t)%nat.

(** A status-200 response with the given headers and body, for examples. *)
Definition image_response (content_type : string) (content_length : option string)
    (body : list byte) : response :=
  mkresponse 200 "OK"
    (("Content-Type", content_type)
       :: match content_length with
          | Some cl => [("Content-Length", cl)]
          | None => []
          end)
    (Return body).

(** The example directory after [http://x/a.png] was fetched into a
    file system without it. *)
Definition example_after_first : filesystem :=
  {[ "Fetched_Images" := Dir [ ("a.png", RegularFile (list_byte_of_string "abc")) ] ]}.

(** The downloads of a run: every URL of the list is fetched once into
    [Fetched_Images] with duplicate checking on, in the order of the
    list, each from the file system the one before left; [outcomes] are
    their outcomes in that order. *)
Inductive downloads (rt : runtime) (requests_get : string -> result response)
  : list string -> filesystem -> list (bool * string) -> filesystem -> Prop :=
| downloads_nil fs : downloads rt requests_get [] fs [] fs
| downloads_cons url urls fs outcome fs1 outcomes fs' :
    download_image rt requests_get url default_directory true fs = (Return outcome, fs1) ->
    downloads rt requests_get urls fs1 outcomes fs' ->
    downloads rt requests_get (url :: urls) fs (outcome :: outcomes) fs'.

(** A network for the examples. *)
Definition example_network (url : string) : result response :=
  if String.eqb url "http://x/a.png" then
    Return (image_response "image/png" (Some "3") (list_byte_of_string "abc"))
  else if String.eqb url "http://y/a.png" then
    Return (image_response "image/png" (Some "3") (list_byte_of_string "xyz"))
  else if String.eqb url "http://x/big.png" then
    Return (image_response "image/png" (Some "60000000") [])
  else if String.eqb url "http://x/page" then
    Return (image_response "text/html" None (list_byte_of_string "abc"))
  else if String.eqb url "http://x/report" then
    Return (image_response "text/duplicate" None (list_byte_of_string "<html>"))
  else if String.eqb url "http://x/gone.png" then
    Return (mkresponse 404 "Not Found" [("Content-Type", "image/png")] (Return []))
  else if String.eqb url "http://down/a.png" then
    Raise (ConnectionError "Max retries exceeded")
  else Raise (Timeout "Read timed out. (read timeout=10)").

End Vocabulary.

(** ** The prompts of [main]

    [input()] reads the next line of standard input, without its newline,
    and raises [EOFError] when there is none.  Standard input is the list
    of the lines still unread. *)

Section Prompts.
Import Py Os Requests.

(** The white space [s.strip()] removes, within ASCII. *)
Definition is_py_space (c : ascii) : bool :=
  ((code c =? 32) || ((9 <=? code c) && (code c <=? 13))
   || ((28 <=? code c) && (code c <=? 31)))%N.

(** [s.strip()]: that white space and the white space beyond ASCII. *)
Definition strip (s : string) : string :=
  rstrip_space is_py_space (lstrip_space is_py_space s).

Definition upper_char (c : ascii) : ascii :=
  if is_ascii_lower c then ascii_of_N (code c - 32) else c.

(** [s.upper()], on ASCII letters.  Letters beyond ASCII are left as
    they are: none of them upper-cases to "M", the one text the program
    compares an upper-cased answer with. *)
Fixpoint upper (s : string) : string :=
  match s with
  | EmptyString => EmptyString
  | String c t => String (upper_char c) (upper t)
  end.

(** [EOFError], which derives from [Exception]. *)
Definition eof_error : exn := OtherException "EOF when reading a line".

(** [input(prompt)]: the line read and the lines left. *)
Definition input (stdin : list string) : result (string * list string) :=
  match stdin with
  | [] => Raise eof_error
  | line :: rest => Return (line, rest)
  end.

(** The loop [while True: url = input("URL: ").strip() ...] of the
    multiple mode: the URLs appended, and the input left. *)
Fixpoint read_many (stdin : list string) : result (list string * list string) :=
  match stdin with
  | [] => Raise eof_error
  | line :: rest =>
      let url := strip line in
      if negb (truthy url) then Return ([], rest)
      else rbind (read_many rest) (fun '(urls, unread) => Return (url :: urls, unread))
  end.

(** The part of [main] that asks for the mode and collects [urls]. *)
Definition read_urls (stdin : list string) : result (list string * list string) :=
  rbind (input stdin) (fun '(answer, stdin) =>
  let mode := upper (strip answer) in
  if String.eqb mode "M" then read_many stdin
  else
    rbind (input stdin) (fun '(line, stdin) =>
    let url := strip line in
    Return (if truthy url then [url] else [], stdin))).

(** [main()] run on the lines of standard input: the tally of the summary
    (none when no URL was given) and the input left unread. *)
Definition main_interactive (rt : runtime) (requests_get : string -> result response)
    (stdin : list string) : M (option tally * list string) :=
  Os.bind (lift (read_urls stdin)) (fun '(urls, unread) =>
  Os.bind (main rt requests_get urls) (fun t => ret (t, unread))).

(** The example directory after a run on [http://x/a.png] (already there
    as cat.png) and [http://y/a.png] (new). *)
Definition example_after_second : filesystem :=
  {[ "Fetched_Images" :=
       Dir [ ("notes", Subdirectory);
             ("cat.png", RegularFile (list_byte_of_string "abc"));
             ("copy.png", RegularFile (list_byte_of_string "abc"));
             ("a.png", RegularFile (list_byte_of_string "xyz")) ] ]}.

(** The example directory after a fetch of [http://y/a.png] on a full
    disk. *)
Definition example_after_full_disk : filesystem :=
  {[ "Fetched_Images" :=
       Dir [ ("notes", Subdirectory);
             ("cat.png", RegularFile (list_byte_of_string "abc"));
             ("copy.png", RegularFile (list_byte_of_string "abc"));
             ("a.png", RegularFile []) ] ]}.

End Prompts.

(** * Properties *)

(** ** Facts about the built-ins *)

Section PyFacts.
Import Py.
Local Open Scope Z_scope.

Lemma round_half_even_bounds a b :
  0 < b -> a / b <= round_half_even a b <= a / b + 1.
Proof.
  intros Hb. unfold round_half_even.
  repeat match goal with |- context [if ?c then _ else _] => destruct c end; lia.
Qed.

Lemma round_half_even_up a b :
  0 < b -> Z.even (a / b) = false ->
  (round_half_even a b = a / b + 1 <-> b <= 2 * (a mod b)).
Proof.
  intros Hb Hodd. unfold round_half_even. rewrite Hodd.
  destruct (Z.ltb_spec (2 * (a mod b)) b), (Z.ltb_spec b (2 * (a mod b))); lia.
Qed.

Lemma bit_length_spec a :
  0 < a -> 2 ^ (bit_length a - 1) <= a < 2 ^ bit_length a.
Proof.
  intros Ha. unfold bit_length.
  destruct (Z.eqb_spec a 0) as [->|_]; [lia|].
  rewrite Z.abs_eq by lia.
  replace (Z.log2 a + 1 - 1) with (Z.log2 a) by lia.
  apply Z.log2_spec; lia.
Qed.

Lemma bit_length_abs n : bit_length (Z.abs n) = bit_length n.
Proof.
  unfold bit_length. rewrite Z.abs_idemp.
  destruct (Z.eqb_spec n 0), (Z.eqb_spec (Z.abs n) 0); lia.
Qed.

Lemma round53_abs n : Z.abs (round53 n) = round53 (Z.abs n).
Proof.
  unfold round53. rewrite bit_length_abs, Z.abs_idemp.
  destruct (bit_length n <=? 53); [reflexivity|].
  set (E := 2 ^ (bit_length n - 53)).
  assert (HE : 0 <= E) by (apply Z.pow_nonneg; lia).
  assert (Hr : 0 <= round_half_even (Z.abs n) E * E).
  { destruct (Z.eq_dec E 0) as [->|]; [lia|].
    pose proof (round_half_even_bounds (Z.abs n) E ltac:(lia)).
    assert (0 <= Z.abs n / E) by (apply Z.div_pos; lia). nia. }
  destruct (Z.lt_trichotomy n 0) as [Hn|[->|Hn]].
  - rewrite (Z.sgn_neg n), (Z.sgn_pos (Z.abs n)) by lia. lia.
  - reflexivity.
  - rewrite (Z.sgn_pos n), (Z.sgn_pos (Z.abs n)) by lia. lia.
Qed.

(** Rounding to 53 bits never moves a value across a small integer. *)
Lemma round53_nonneg_small a : 0 <= a < 2 ^ 53 -> round53 a = a.
Proof.
  intros Ha. unfold round53.
  destruct (Z.leb_spec (bit_length a) 53) as [|Hl]; [reflexivity|].
  exfalso. assert (0 < a) by (destruct (Z.eq_dec a 0) as [->|]; [cbn in Hl|]; lia).
  pose proof (bit_length_spec a ltac:(lia)) as [Hlo _].
  assert (2 ^ 53 <= 2 ^ (bit_length a - 1)) by (apply Z.pow_le_mono_r; lia). lia.
Qed.

Lemma round53_large a : 2 ^ 53 <= a -> 2 ^ 52 <= round53 a.
Proof.
  intros Ha. unfold round53.
  destruct (Z.leb_spec (bit_length a) 53) as [|Hl]; [lia|].
  pose proof (bit_length_spec a ltac:(lia)) as [Hlo Hhi].
  set (e := bit_length a - 53) in *.
  assert (He : 0 < e) by lia.
  assert (HE : 0 < 2 ^ e) by (apply Z.pow_pos_nonneg; lia).
  replace (bit_length a - 1) with (52 + e) in Hlo by lia.
  rewrite Z.pow_add_r in Hlo by lia.
  rewrite Z.abs_eq, Z.sgn_pos by lia.
  pose proof (round_half_even_bounds a (2 ^ e) HE) as [Hq _].
  assert (2 ^ 52 <= a / 2 ^ e) by (apply Z.div_le_lower_bound; lia).
  nia.
Qed.

Lemma round53_overflow a k :
  0 <= a -> 0 <= k -> (2 ^ (1024 + k) <= round53 a <-> float_bound k <= a).
Proof.
  intros Ha Hk. unfold float_bound.
  set (T := 2 ^ (970 + k)).
  assert (HT : 0 < T) by (apply Z.pow_pos_nonneg; lia).
  assert (H54 : 2 ^ (1024 + k) = 2 ^ 54 * T).
  { unfold T. rewrite <- Z.pow_add_r by lia. f_equal. lia. }
  rewrite H54. clear H54.
  destruct (Z.lt_ge_cases a (2 ^ 53)) as [Hs|Hl].
  { rewrite round53_nonneg_small by lia. lia. }
  unfold round53.
  pose proof (bit_length_spec a ltac:(lia)) as [Hlo Hhi].
  destruct (Z.leb_spec (bit_length a) 53) as [Hb|Hb].
  { exfalso. assert (2 ^ bit_length a <= 2 ^ 53) by (apply Z.pow_le_mono_r; lia). lia. }
  rewrite Z.abs_eq, Z.sgn_pos by lia.
  set (e := bit_length a - 53) in *.
  set (E := 2 ^ e).
  assert (HE : 0 < E) by (apply Z.pow_pos_nonneg; lia).
  assert (Hlo' : 2 ^ 52 * E <= a).
  { unfold E. rewrite <- Z.pow_add_r by lia.
    replace (52 + e) with (bit_length a - 1) by lia. exact Hlo. }
  assert (Hhi' : a < 2 ^ 53 * E).
  { unfold E. rewrite <- Z.pow_add_r by lia.
    replace (53 + e) with (bit_length a) by lia. exact Hhi. }
  pose proof (round_half_even_bounds a E HE) as [Hq1 Hq2].
  pose proof (Z.div_mod a E ltac:(lia)) as Hdm.
  pose proof (Z.mod_pos_bound a E HE) as Hrem.
  set (q := a / E) in *. set (r := a mod E) in *.
  set (m := round_half_even a E) in *.
  assert (Hqlo : 2 ^ 52 <= q) by (apply Z.div_le_lower_bound; lia).
  assert (Hqhi : q < 2 ^ 53) by (apply Z.div_lt_upper_bound; lia).
  destruct (Z.lt_trichotomy e (971 + k)) as [He|[He|He]].
  - assert (E <= T) by (apply Z.pow_le_mono_r; lia).
    assert (m * E <= 2 ^ 53 * E) by nia.
    split; intros; exfalso; lia.
  - assert (HET : E = 2 * T).
    { unfold E, T. rewrite He. replace (971 + k) with (Z.succ (970 + k)) by lia.
      rewrite Z.pow_succ_r by lia. reflexivity. }
    destruct (Z.eq_dec q (2 ^ 53 - 1)) as [Hq|Hq].
    + assert (Hodd : Z.even q = false) by (rewrite Hq; reflexivity).
      pose proof (round_half_even_up a E HE Hodd) as Hup. fold m q r in Hup.
      split; intros Hgoal.
      * assert (m = q + 1) by nia. apply Hup in H. nia.
      * assert (E <= 2 * r) by nia. apply Hup in H. rewrite H, Hq, HET. lia.
    + assert (m <= 2 ^ 53 - 1) by lia.
      split; intros; exfalso; nia.
  - assert (4 * T <= E).
    { unfold E, T. replace (4 * 2 ^ (970 + k)) with (2 ^ (972 + k)).
      - apply Z.pow_le_mono_r; lia.
      - replace (972 + k) with (2 + (970 + k)) by lia.
        rewrite Z.pow_add_r by lia. reflexivity. }
    split; intros; nia.
Qed.

(** When [n / 2 ** k] is a float, and which one. *)
Lemma truediv_pow2_spec n k :
  0 <= k ->
  truediv_pow2 n k =
    if Z.abs n <? float_bound k then Return (mkfloat (round53 n) k)
    else Raise (OverflowError "integer division result too large for a float").
Proof.
  intros Hk. unfold truediv_pow2.
  pose proof (round53_overflow (Z.abs n) k ltac:(lia) Hk) as Hov.
  rewrite <- round53_abs in Hov.
  destruct (Z.leb_spec (2 ^ (1024 + k)) (Z.abs (round53 n))),
           (Z.ltb_spec (Z.abs n) (float_bound k)); try reflexivity; lia.
Qed.

(** The size test of the validator, on the integer itself. *)
Lemma float_gt_round53 n c k :
  0 <= k -> 0 <= c -> c * 2 ^ k < 2 ^ 52 ->
  float_gt (mkfloat (round53 n) k) c = (c * 2 ^ k <? n).
Proof.
  intros Hk Hc Hsmall. unfold float_gt. cbn [fnum fexp].
  destruct (Z.lt_ge_cases n 0) as [Hneg|Hpos].
  - pose proof (round53_abs n) as Habs.
    assert (round53 n <= 0).
    { destruct (Z.le_gt_cases (round53 n) 0) as [|Hgt]; [assumption|exfalso].
      unfold round53 in Hgt.
      destruct (bit_length n <=? 53); [lia|].
      rewrite Z.sgn_neg in Hgt by lia.
      assert (0 <= 2 ^ (bit_length n - 53)) by (apply Z.pow_nonneg; lia).
      set (E := 2 ^ (bit_length n - 53)) in *.
      destruct (Z.eq_dec E 0) as [HE0|HE0]; [rewrite HE0 in Hgt; lia|].
      pose proof (round_half_even_bounds (Z.abs n) E ltac:(lia)).
      assert (0 <= Z.abs n / E) by (apply Z.div_pos; lia). nia. }
    assert (0 <= c * 2 ^ k) by (apply Z.mul_nonneg_nonneg; [lia|apply Z.pow_nonneg; lia]).
    destruct (Z.ltb_spec (c * 2 ^ k) (round53 n)), (Z.ltb_spec (c * 2 ^ k) n); lia.
  - destruct (Z.lt_ge_cases n (2 ^ 53)) as [Hs|Hl].
    + rewrite round53_nonneg_small by lia. reflexivity.
    + pose proof (round53_large n Hl).
      destruct (Z.ltb_spec (c * 2 ^ k) (round53 n)), (Z.ltb_spec (c * 2 ^ k) n); lia.
Qed.

End PyFacts.
Section ValidatorFacts.
Import Py Requests.
Local Open Scope Z_scope.

Lemma truthy_false s : truthy s = false <-> s = "".
Proof. destruct s; cbn; split; congruence. Qed.

(** The validator with its float arithmetic replaced by the equivalent
    tests on the declared integer. *)
Lemma validate_image_headers_eq r :
  validate_image_headers r =
    if negb (startswith (lower (content_type_of r)) "image/")
    then Return (false, "Content-Type '" +:+ lower (content_type_of r) +:+ "' is not an image")
    else
      match headers_get r "Content-Length" with
      | Some cl =>
          if truthy cl then
            match int_of_str cl with
            | Return n =>
                if Z.abs n <? float_bound 20 then
                  if size_limit_bytes <? n
                  then Return (false, "File size (" +:+ format_1f (mkfloat (round53 n) 20)
                                        +:+ "MB) exceeds safety limit of 50MB")
                  else Return (true, "Valid image headers")
                else Raise (OverflowError "integer division result too large for a float")
            | Raise e => Raise e
            end
          else Return (true, "Valid image headers")
      | None => Return (true, "Valid image headers")
      end.
Proof.
  unfold validate_image_headers, content_type_of.
  destruct (negb _); [reflexivity|].
  destruct (headers_get r "Content-Length") as [cl|]; [|reflexivity].
  destruct (truthy cl); [|reflexivity].
  destruct (int_of_str cl) as [n|e]; [|reflexivity].
  cbn [rbind]. rewrite truediv_pow2_spec by lia.
  destruct (Z.abs n <? float_bound 20); [|reflexivity].
  cbn [rbind]. unfold size_limit_mb.
  rewrite float_gt_round53 by (cbn; lia).
  reflexivity.
Qed.

Lemma limit_below_float_bound : size_limit_bytes < float_bound 20.
Proof. vm_compute. reflexivity. Qed.

Lemma accepts_iff r :
  accepts r <->
  startswith (lower (content_type_of r)) "image/" = true /\ declared_length_ok r.
Proof.
  pose proof limit_below_float_bound as Hlim.
  unfold accepts, declared_length_ok. rewrite validate_image_headers_eq.
  destruct (startswith (lower (content_type_of r)) "image/"); cbn [negb].
  2:{ split; [intros [msg H]; discriminate | intros [H _]; discriminate]. }
  destruct (headers_get r "Content-Length") as [cl|].
  2:{ split; eauto. }
  destruct (truthy cl) eqn:Hcl.
  2:{ apply truthy_false in Hcl. split; eauto. }
  destruct (int_of_str cl) as [n|e].
  2:{ split; [intros [msg H]; discriminate|].
      intros [_ [->|(n & H & _)]]; discriminate. }
  destruct (Z.ltb_spec (Z.abs n) (float_bound 20)) as [Hb|Hb].
  2:{ split; [intros [msg H]; discriminate|].
      intros [_ [->|(n' & H & Hr)]]; [discriminate|].
      injection H as <-. lia. }
  destruct (Z.ltb_spec size_limit_bytes n) as [Hn|Hn].
  - split; [intros [msg H]; discriminate|].
    intros [_ [->|(n' & H & Hr)]]; [discriminate|].
    injection H as <-. lia.
  - split; [|eauto]. intros _. split; [reflexivity|].
    right. exists n. split; [reflexivity|lia].
Qed.

Lemma with_content_headers r body key :
  headers_get (with_content r body) key = headers_get r key.
Proof. reflexivity. Qed.

Lemma validate_image_headers_with_content r body :
  validate_image_headers (with_content r body) = validate_image_headers r.
Proof. reflexivity. Qed.

End ValidatorFacts.

(** ** Header validation *)

Section HeaderValidator.
Import Py Requests.
Local Open Scope Z_scope.

(** C1, as amended.  The validator accepts a response exactly when its
    content-type, lower-cased, begins with "image/" and its content-length
    is absent, empty, or converts to an integer of at most 52,428,800
    (50 MB) that is above the negative end of the float range; and a
    response whose content-type is text/html is rejected whatever its
    body. *)
Theorem validate_image_headers_accepts_iff :
  (forall r,
      accepts r <->
      startswith (lower (content_type_of r)) "image/" = true /\ declared_length_ok r)
  /\ (forall r,
        headers_get r "Content-Type" = Some "text/html" ->
        forall body,
          validate_image_headers (with_content r body)
          = Return (false, "Content-Type 'text/html' is not an image")).
Proof.
  split; [exact accepts_iff|].
  intros r Hct body.
  rewrite validate_image_headers_with_content, validate_image_headers_eq.
  unfold content_type_of. rewrite Hct. reflexivity.
Qed.

Lemma validate_image_headers_accepts_iff_witness :
  accepts (image_response "image/png" (Some "1000") [])
  /\ validate_image_headers
       (with_content (image_response "text/html" None []) (Return [Byte.x89; Byte.x50]))
     = Return (false, "Content-Type 'text/html' is not an image").
Proof.
  split.
  - apply (proj1 validate_image_headers_accepts_iff).
    split; [reflexivity|].
    right. exists 1000. split; [reflexivity|]. split; vm_compute; congruence.
  - apply (proj2 validate_image_headers_accepts_iff). reflexivity.
Defined.

(** C1 as it is written fails: a content-type in upper case does not begin
    with "image/", and the validator accepts it. *)
Lemma validate_image_headers_accepts_upper_case :
  validate_image_headers (image_response "IMAGE/PNG" None [])
  = Return (true, "Valid image headers")
  /\ startswith (content_type_of (image_response "IMAGE/PNG" None [])) "image/" = false.
Proof. split; reflexivity. Qed.

(** C3.  The validator does not return for every pair of header values,
    although its docstring promises "Returns (is_valid, message)".  With
    an image content-type and a content-length that is not a number, the
    unguarded [int(content_length)] raises [ValueError]; no decision and
    no reason come back, and [download_image] reports the text of the
    exception as an unexpected error. *)
Theorem validate_image_headers_raises_on_malformed_length :
  validate_image_headers (image_response "image/png" (Some "abc") [])
  = Raise (ValueError "invalid literal for int() with base 10: 'abc'")
  /\ fst (download_image example_runtime
            (fun _ => Return (image_response "image/png" (Some "abc") []))
            "http://x/a.png" "Fetched_Images" true ∅)
     = Return (false, "✗ Unexpected error: invalid literal for int() with base 10: 'abc'").
Proof. split; [reflexivity|vm_compute; reflexivity]. Qed.

(** C10.  Without a Content-Length header, or with an empty one, the
    validator makes no size check: its answer is the content-type test
    alone, whatever the body. *)
Theorem validate_image_headers_without_length :
  forall r,
    headers_get r "Content-Length" = None \/ headers_get r "Content-Length" = Some "" ->
    forall body,
      validate_image_headers (with_content r body) =
        if startswith (lower (content_type_of r)) "image/"
        then Return (true, "Valid image headers")
        else Return (false, "Content-Type '" +:+ lower (content_type_of r)
                              +:+ "' is not an image").
Proof.
  intros r Hcl body.
  rewrite validate_image_headers_with_content, validate_image_headers_eq.
  destruct (startswith _ _); cbn [negb]; [|reflexivity].
  destruct Hcl as [-> | ->]; reflexivity.
Qed.

Lemma validate_image_headers_without_length_witness :
  validate_image_headers
    (with_content (image_response "image/gif" None []) (Return (repeat Byte.x00 70)))
  = Return (true, "Valid image headers").
Proof.
  apply (validate_image_headers_without_length (image_response "image/gif" None [])).
  left. reflexivity.
Defined.

End HeaderValidator.

(** ** File names *)

(** ** Facts about strings and URLs *)

Section UrlFacts.
Import Py Urllib Requests.
Local Open Scope Z_scope.


Lemma startswith_app s p t : startswith s p = true -> startswith (s +:+ t) p = true.
Proof.
  revert s. induction p as [|a p IH]; intros s; [reflexivity|].
  destruct s as [|b s]; [discriminate|].
  change (String b s +:+ t) with (String b (s +:+ t)).
  cbn [startswith]. intros H. apply andb_true_iff in H as [-> H].
  cbn [andb]. apply IH. exact H.
Qed.








Lemma rfind_ge c s : -1 <= rfind c s.
Proof.
  induction s as [|b s IH]; cbn [rfind]; [lia|].
  destruct (Z.leb_spec 0 (rfind c s)); [lia|]. destruct (Ascii.eqb c b); lia.
Qed.


































End UrlFacts.

Section FilenameResolver.
Import Py Urllib Requests.
Local Open Scope Z_scope.






End FilenameResolver.

(** ** Duplicate detection *)

Section DuplicateFacts.
Import Py Hashlib Os Requests.

Lemma firstn_nil_inv {A} n (l : list A) : firstn (S n) l = [] -> l = [].
Proof. destruct l; [reflexivity|discriminate]. Qed.

Lemma block_size_pos : exists n, block_size = S n.
Proof. exists 4095%nat. reflexivity. Qed.

(** Reading block by block feeds the hash exactly the unread bytes. *)
Lemma read_blocks_spec fuel unread h :
  (length unread < fuel)%nat -> read_blocks fuel unread h = h ++ unread.
Proof.
  destruct block_size_pos as [b Hb].
  revert unread h. induction fuel as [|fuel IH]; intros unread h Hlen; [lia|].
  cbn [read_blocks].
  destruct (firstn block_size unread) as [|x block] eqn:Hblock.
  - rewrite Hb in Hblock. apply firstn_nil_inv in Hblock. subst.
    symmetry. apply app_nil_r.
  - rewrite <- Hblock. unfold update.
    assert (unread <> []) by (intros ->; rewrite firstn_nil in Hblock; discriminate).
    rewrite IH.
    + rewrite <- app_assoc, firstn_skipn. reflexivity.
    + rewrite length_skipn. rewrite Hb. destruct unread; [congruence|cbn in *; lia].
Qed.

Lemma get_file_hash_regular fs directory name data :
  entry_at fs directory name = Some (RegularFile data) ->
  get_file_hash directory name fs = (Return (sha256_hexdigest data), fs).
Proof.
  intros He. unfold get_file_hash, bind, open_rb, ret. rewrite He.
  unfold hexdigest, sha256_new. rewrite read_blocks_spec by lia. reflexivity.
Qed.

(** The scan returns the first listed name that is a regular file with
    the digest sought, and leaves the file system as it was. *)
Lemma scan_directory_spec fs directory digest names :
  scan_directory digest directory names fs =
    (Return match List.find (has_digest fs directory digest) names with
            | Some filename => (true, Some filename)
            | None => (false, None)
            end, fs).
Proof.
  induction names as [|name rest IH]; [reflexivity|].
  cbn [scan_directory List.find]. unfold bind at 1, path_isfile, has_digest at 1.
  destruct (entry_at fs directory name) as [[data|]|] eqn:He; try exact IH.
  unfold bind at 1. rewrite (get_file_hash_regular _ _ _ _ He).
  destruct (String.eqb (sha256_hexdigest data) digest); [reflexivity|exact IH].
Qed.

Lemma is_duplicate_eq content directory fs :
  fs !! directory <> Some NotDir ->
  is_duplicate content directory fs =
    (Return match List.find (has_digest fs directory (sha256_hexdigest content))
                            (listed fs directory) with
            | Some filename => (true, Some filename)
            | None => (false, None)
            end, fs).
Proof.
  intros Hdir. unfold is_duplicate, bind at 1, path_exists, listed.
  destruct (fs !! directory) as [[entries|]|] eqn:Hfs; [| congruence |].
  - rewrite bool_decide_eq_true_2 by eauto. cbn [negb].
    unfold bind at 1, listdir. rewrite Hfs. apply scan_directory_spec.
  - rewrite bool_decide_eq_false_2 by (intros [? ?]; discriminate). reflexivity.
Qed.

Lemma has_digest_true fs directory digest name :
  has_digest fs directory digest name = true <-> file_has_digest fs directory digest name.
Proof.
  unfold has_digest, file_has_digest.
  destruct (entry_at fs directory name) as [[data|]|].
  - rewrite String.eqb_eq. split; [eauto|]. intros (d & [= <-] & H). exact H.
  - split; [discriminate|]. intros (d & H & _). discriminate.
  - split; [discriminate|]. intros (d & H & _). discriminate.
Qed.

(** [List.find] returns the first element that passes the test. *)
Lemma find_first {A} (p : A -> bool) l x :
  List.find p l = Some x <->
  exists pre post, l = pre ++ x :: post /\ p x = true /\ forall y, In y pre -> p y = false.
Proof.
  induction l as [|a l IH]; cbn [List.find].
  - split; [discriminate|]. intros (pre & post & H & _). destruct pre; discriminate.
  - destruct (p a) eqn:Hpa.
    + split.
      * intros [= <-]. exists [], l. repeat split; [assumption|contradiction].
      * intros (pre & post & Hl & Hx & Hpre).
        destruct pre as [|b pre]; cbn in Hl; injection Hl as <- ->; [reflexivity|].
        rewrite (Hpre a (or_introl eq_refl)) in Hpa. discriminate.
    + rewrite IH. split.
      * intros (pre & post & -> & Hx & Hpre). exists (a :: pre), post.
        repeat split; [assumption|]. intros y [<-|Hy]; auto.
      * intros (pre & post & Hl & Hx & Hpre).
        destruct pre as [|b pre]; cbn in Hl; injection Hl as <- ->; [congruence|].
        exists pre, post. repeat split; [assumption|]. intros y Hy. apply Hpre. right. exact Hy.
Qed.

Lemma find_none_iff {A} (p : A -> bool) l :
  List.find p l = None <-> forall y, In y l -> p y = false.
Proof.
  split; [apply List.find_none|].
  intros H. destruct (List.find p l) as [x|] eqn:Hf; [|reflexivity].
  apply List.find_some in Hf as [Hin Hp]. rewrite (H x Hin) in Hp. discriminate.
Qed.

Lemma entry_at_listed fs directory name nd :
  entry_at fs directory name = Some nd -> In name (listed fs directory).
Proof.
  unfold entry_at, listed. destruct (fs !! directory) as [[entries|]|]; try discriminate.
  induction entries as [|[n x] rest IH]; cbn; [discriminate|].
  destruct (String.eqb_spec n name); [auto|]. intros H. right. auto.
Qed.

End DuplicateFacts.

Section DuplicateDetector.
Import Py Hashlib Os Requests.

(** C5.  Given candidate bytes and a target directory (a path that is a
    directory or does not exist), the duplicate detector returns, without
    changing the file system, either a match with a file name or no
    match: a match exactly when some regular file of the directory has the
    digest of the candidate, the name returned being the first such name in
    listing order. *)
Theorem is_duplicate_spec content directory fs :
  fs !! directory <> Some NotDir ->
  exists answer,
    is_duplicate content directory fs = (Return answer, fs)
    /\ ((exists filename, answer = (true, Some filename)) <->
        (exists name, file_has_digest fs directory (sha256_hexdigest content) name))
    /\ (forall filename,
           answer = (true, Some filename) <->
           exists pre post,
             listed fs directory = pre ++ filename :: post
             /\ file_has_digest fs directory (sha256_hexdigest content) filename
             /\ forall name, In name pre ->
                             ~ file_has_digest fs directory (sha256_hexdigest content) name)
    /\ (answer = (false, None) <->
        ~ exists name, file_has_digest fs directory (sha256_hexdigest content) name).
Proof.
  intros Hdir. rewrite (is_duplicate_eq _ _ _ Hdir).
  set (digest := sha256_hexdigest content).
  eexists. split; [reflexivity|].
  assert (Hfirst : forall filename,
             List.find (has_digest fs directory digest) (listed fs directory) = Some filename <->
             exists pre post,
               listed fs directory = pre ++ filename :: post
               /\ file_has_digest fs directory digest filename
               /\ forall name, In name pre -> ~ file_has_digest fs directory digest name).
  { intros filename. rewrite find_first. split.
    - intros (pre & post & Hl & Hx & Hpre). exists pre, post. repeat split; try assumption.
      + apply has_digest_true. assumption.
      + intros name Hin Hd. apply has_digest_true in Hd. rewrite (Hpre name Hin) in Hd.
        discriminate.
    - intros (pre & post & Hl & Hx & Hpre). exists pre, post. repeat split; try assumption.
      + apply has_digest_true. assumption.
      + intros y Hin. destruct (has_digest fs directory digest y) eqn:Hy; [|reflexivity].
        apply has_digest_true in Hy. destruct (Hpre y Hin Hy). }
  assert (Hnone : List.find (has_digest fs directory digest) (listed fs directory) = None <->
                  ~ exists name, file_has_digest fs directory digest name).
  { rewrite find_none_iff. split.
    - intros H (name & Hd). pose proof Hd as (data & He & _).
      apply entry_at_listed in He. apply has_digest_true in Hd.
      rewrite (H name He) in Hd. discriminate.
    - intros H y _. destruct (has_digest fs directory digest y) eqn:Hy; [|reflexivity].
      apply has_digest_true in Hy. destruct H. eauto. }
  destruct (List.find (has_digest fs directory digest) (listed fs directory)) as [f|] eqn:Hf.
  - split; [|split].
    + split; [|eauto]. intros _.
      destruct (proj1 (Hfirst f) eq_refl) as (_ & _ & _ & Hd & _). eauto.
    + intros filename. rewrite <- Hfirst. split; congruence.
    + split; [discriminate|]. intros H. apply Hnone in H. discriminate.
  - split; [|split].
    + split; [intros [? [=]]|]. intros H. exfalso. apply Hnone; [reflexivity|exact H].
    + intros filename. rewrite <- Hfirst. split; discriminate.
    + split; [|reflexivity]. intros _. apply Hnone. reflexivity.
Qed.

Lemma is_duplicate_spec_witness :
  exists answer,
    is_duplicate (list_byte_of_string "abc") "Fetched_Images" example_directory
    = (Return answer, example_directory)
    /\ ((exists filename, answer = (true, Some filename)) <->
        (exists name,
            file_has_digest example_directory "Fetched_Images"
              (sha256_hexdigest (list_byte_of_string "abc")) name))
    /\ (forall filename,
           answer = (true, Some filename) <->
           exists pre post,
             listed example_directory "Fetched_Images" = pre ++ filename :: post
             /\ file_has_digest example_directory "Fetched_Images"
                  (sha256_hexdigest (list_byte_of_string "abc")) filename
             /\ forall name, In name pre ->
                             ~ file_has_digest example_directory "Fetched_Images"
                                 (sha256_hexdigest (list_byte_of_string "abc")) name)
    /\ (answer = (false, None) <->
        ~ exists name,
            file_has_digest example_directory "Fetched_Images"
              (sha256_hexdigest (list_byte_of_string "abc")) name).
Proof.
  apply (is_duplicate_spec (list_byte_of_string "abc") "Fetched_Images" example_directory).
  vm_compute. discriminate.
Defined.

(** On the example directory the scan skips the subdirectory and stops at
    the first of the two copies. *)
Example is_duplicate_first_copy :
  is_duplicate (list_byte_of_string "abc") "Fetched_Images" example_directory
  = (Return (true, Some "cat.png"), example_directory)
  /\ is_duplicate (list_byte_of_string "abd") "Fetched_Images" example_directory
    = (Return (false, None), example_directory)
  /\ sha256_hexdigest (list_byte_of_string "abc")
    = "ba7816bf8f01cfea414140de5dae2223b00361a396177a9cb410ff61f20015ad".
Proof. split; [|split]; vm_compute; reflexivity. Qed.

End DuplicateDetector.

(** ** The fetcher and the driver *)

Section FetcherFacts.
Import Py Hashlib Urllib Os Requests.
Context (rt : runtime) (requests_get : string -> result response).

Lemma truthy_true s : truthy s = true <-> s <> "".
Proof. destruct s; cbn; split; congruence. Qed.

(** *** The file system *)

Lemma created_lookup directory fs :
  fs !! directory <> Some NotDir ->
  exists entries,
    created directory fs !! directory = Some (Dir entries)
    /\ (fs !! directory = Some (Dir entries) \/ fs !! directory = None /\ entries = []).
Proof.
  intros Hdir. unfold created.
  destruct (fs !! directory) as [[entries|]|] eqn:Hfs; [| congruence |].
  - exists entries. auto.
  - exists []. rewrite lookup_insert_eq. auto.
Qed.

Lemma created_other directory fs d :
  d <> directory -> created directory fs !! d = fs !! d.
Proof.
  intros Hne. unfold created. destruct (fs !! directory); [reflexivity|].
  apply lookup_insert_ne. congruence.
Qed.

Lemma created_entry_at directory fs d name :
  entry_at (created directory fs) d name = entry_at fs d name.
Proof.
  unfold entry_at. destruct (decide (d = directory)) as [->|Hne].
  - unfold created. destruct (fs !! directory) as [x|] eqn:Hfs; [rewrite Hfs; reflexivity|].
    rewrite lookup_insert_eq. rewrite ?Hfs. reflexivity.
  - rewrite created_other by assumption. reflexivity.
Qed.

Lemma created_present directory fs : is_Some (fs !! directory) -> created directory fs = fs.
Proof. intros [x Hx]. unfold created. rewrite Hx. reflexivity. Qed.

Lemma makedirs_ok directory fs :
  fs !! directory <> Some NotDir -> directory <> "" ->
  makedirs directory fs = (Return tt, created directory fs).
Proof.
  intros Hdir Hne. unfold makedirs, created.
  destruct (fs !! directory) as [[entries|]|]; [reflexivity|congruence|].
  apply truthy_true in Hne. rewrite Hne. reflexivity.
Qed.

Lemma makedirs_present directory fs entries :
  fs !! directory = Some (Dir entries) ->
  makedirs directory fs = (Return tt, created directory fs) /\ created directory fs = fs.
Proof. intros H. unfold makedirs, created. rewrite H. split; reflexivity. Qed.

(** [makedirs] either fails and changes nothing, or yields [created]. *)
Lemma makedirs_cases directory fs :
  (exists e, makedirs directory fs = (Raise e, fs))
  \/ (makedirs directory fs = (Return tt, created directory fs)
      /\ fs !! directory <> Some NotDir).
Proof.
  unfold makedirs, created.
  destruct (fs !! directory) as [[entries|]|].
  - right. split; [reflexivity|congruence].
  - left. eauto.
  - destruct (truthy directory); [right|left; eauto].
    split; [reflexivity|congruence].
Qed.

Lemma lookup_write_entry name data entries :
  lookup_entry name (write_entry name data entries) = Some (RegularFile data).
Proof.
  induction entries as [|[n nd] rest IH]; cbn.
  - rewrite String.eqb_refl. reflexivity.
  - destruct (String.eqb n name) eqn:E; cbn; rewrite E; [reflexivity|exact IH].
Qed.

Lemma lookup_write_entry_ne name other data entries :
  other <> name ->
  lookup_entry other (write_entry name data entries) = lookup_entry other entries.
Proof.
  intros Hne. induction entries as [|[n nd] rest IH]; cbn.
  - destruct (String.eqb_spec name other); [congruence|reflexivity].
  - destruct (String.eqb_spec n name) as [->|Hn]; cbn.
    + destruct (String.eqb_spec name other); [congruence|reflexivity].
    + destruct (String.eqb n other); [reflexivity|exact IH].
Qed.

Lemma names_write_entry name data entries :
  map fst (write_entry name data entries) =
    if existsb (String.eqb name) (map fst entries)
    then map fst entries else map fst entries ++ [name].
Proof.
  induction entries as [|[n nd] rest IH]; cbn; [reflexivity|].
  rewrite (String.eqb_sym name n).
  destruct (String.eqb n name); cbn; [reflexivity|].
  rewrite IH. destruct (existsb _ _); reflexivity.
Qed.

Lemma NoDup_write_entry name data entries :
  NoDup (map fst entries) -> NoDup (map fst (write_entry name data entries)).
Proof.
  intros Hnd. rewrite names_write_entry.
  destruct (existsb (String.eqb name) (map fst entries)) eqn:Hex; [exact Hnd|].
  apply NoDup_app; repeat split; [exact Hnd| |apply NoDup_singleton].
  intros x Hx Hx'. apply list_elem_of_In in Hx. apply list_elem_of_In in Hx'.
  destruct Hx' as [<-|[]].
  assert (existsb (String.eqb name) (map fst entries) = true); [|congruence].
  apply existsb_exists. exists name. split; [exact Hx|apply String.eqb_refl].
Qed.

(** Opening for writing either fails and changes nothing, or replaces
    the listing of [directory] by the one with the file written, in full
    or, when the write fails, in part. *)
Lemma open_wb_write_cases directory name data fs :
  (exists e, open_wb_write rt directory name data fs = (Raise e, fs))
  \/ (exists entries,
        fs !! directory = Some (Dir entries)
        /\ open_wb_write rt directory name data fs
           = (Return tt, <[directory := Dir (write_entry name data entries)]> fs))
  \/ (exists entries stored text,
        fs !! directory = Some (Dir entries)
        /\ write_fault rt directory name data = Some (stored, text)
        /\ open_wb_write rt directory name data fs
           = (Raise (OSError text),
              <[directory := Dir (write_entry name stored entries)]> fs)).
Proof.
  unfold open_wb_write.
  destruct (negb _); [left; eauto|].
  destruct (fs !! directory) as [[entries|]|]; [|left; eauto..].
  destruct (_ || _); [left; eauto|].
  assert (Hw :
    (exists e,
       (if (name_max <? String.length name)%nat
        then (Raise (errno "36" "File name too long" (path_join directory name)), fs)
        else
          match write_fault rt directory name data with
          | None => (Return tt, <[directory := Dir (write_entry name data entries)]> fs)
          | Some (stored, text) =>
              (Raise (OSError text),
               <[directory := Dir (write_entry name stored entries)]> fs)
          end) = (@Raise unit e, fs))
    \/ (exists entries0,
          Some (Dir entries) = Some (Dir entries0)
          /\ (if (name_max <? String.length name)%nat
              then (Raise (errno "36" "File name too long" (path_join directory name)), fs)
              else
                match write_fault rt directory name data with
                | None => (Return tt, <[directory := Dir (write_entry name data entries)]> fs)
                | Some (stored, text) =>
                    (Raise (OSError text),
                     <[directory := Dir (write_entry name stored entries)]> fs)
                end)
             = (Return tt, <[directory := Dir (write_entry name data entries0)]> fs))
    \/ (exists entries0 stored text,
          Some (Dir entries) = Some (Dir entries0)
          /\ write_fault rt directory name data = Some (stored, text)
          /\ (if (name_max <? String.length name)%nat
              then (Raise (errno "36" "File name too long" (path_join directory name)), fs)
              else
                match write_fault rt directory name data with
                | None => (Return tt, <[directory := Dir (write_entry name data entries)]> fs)
                | Some (stored, text) =>
                    (Raise (OSError text),
                     <[directory := Dir (write_entry name stored entries)]> fs)
                end)
             = (@Raise unit (OSError text),
                <[directory := Dir (write_entry name stored entries0)]> fs))).
  { destruct (name_max <? String.length name)%nat; [left; eauto|].
    destruct (write_fault rt directory name data) as [[stored text]|].
    - right; right. exists entries, stored, text. auto.
    - right; left. eauto. }
  destruct (lookup_entry name entries) as [[d|]|]; [exact Hw|left; eauto|exact Hw].
Qed.

(** *** The duplicate detector never changes the file system *)

Lemma is_duplicate_state content directory fs :
  snd (is_duplicate content directory fs) = fs.
Proof.
  destruct (fs !! directory) as [[entries|]|] eqn:Hfs.
  - rewrite is_duplicate_eq by congruence. reflexivity.
  - unfold is_duplicate, bind at 1, path_exists. rewrite Hfs.
    rewrite bool_decide_eq_true_2 by eauto. cbn [negb].
    unfold bind, listdir. rewrite Hfs. reflexivity.
  - rewrite is_duplicate_eq by congruence. reflexivity.
Qed.

(** *** Downloads, path by path *)

Lemma handler_fails e : fst (download_image_handler e) = false.
Proof. destruct e; reflexivity. Qed.

Lemma handler_message e : snd (download_image_handler e) <> "".
Proof. destruct e; discriminate. Qed.

(** A download always returns an outcome: the handler of the [try]
    statement covers every exception. *)
Lemma download_image_total url directory check_duplicates fs :
  exists outcome fs',
    download_image rt requests_get url directory check_duplicates fs
    = (Return outcome, fs').
Proof.
  unfold download_image, try_except.
  destruct (download_image_body rt requests_get url directory check_duplicates fs)
    as [[outcome|e] fs']; eauto.
Qed.

Lemma download_image_raise url directory check_duplicates fs e fs' :
  download_image_body rt requests_get url directory check_duplicates fs = (Raise e, fs') ->
  download_image rt requests_get url directory check_duplicates fs
  = (Return (download_image_handler e), fs').
Proof. intros H. unfold download_image, try_except. rewrite H. reflexivity. Qed.

Lemma download_image_return url directory check_duplicates fs outcome fs' :
  download_image_body rt requests_get url directory check_duplicates fs
  = (Return outcome, fs') ->
  download_image rt requests_get url directory check_duplicates fs = (Return outcome, fs').
Proof. intros H. unfold download_image, try_except. rewrite H. reflexivity. Qed.

(** The response is rejected by the validator. *)
Lemma download_image_invalid url directory check_duplicates fs r reason :
  makedirs directory fs = (Return tt, created directory fs) ->
  requests_get url = Return r ->
  raise_for_status r = Return tt ->
  validate_image_headers r = Return (false, reason) ->
  download_image rt requests_get url directory check_duplicates fs
  = (Return (false, "✗ Validation failed: " +:+ reason), created directory fs).
Proof.
  intros Hmk Hget Hst Hval. apply download_image_return.
  unfold download_image_body, bind, lift, ret.
  rewrite Hmk, Hget, Hst, Hval. reflexivity.
Qed.

(** The body is already in the directory. *)
Lemma download_image_duplicate url directory fs r vmsg body filename :
  makedirs directory fs = (Return tt, created directory fs) ->
  fs !! directory <> Some NotDir ->
  requests_get url = Return r ->
  raise_for_status r = Return tt ->
  validate_image_headers r = Return (true, vmsg) ->
  content r = Return body ->
  List.find (has_digest (created directory fs) directory (sha256_hexdigest body))
            (listed (created directory fs) directory) = Some filename ->
  download_image rt requests_get url directory true fs
  = (Return (false, duplicate_message filename), created directory fs).
Proof.
  intros Hmk Hdir Hget Hst Hval Hbody Hfind. apply download_image_return.
  unfold download_image_body, bind, lift, ret.
  rewrite Hmk, Hget, Hst, Hval, Hbody. cbn [negb].
  destruct (created_lookup directory fs Hdir) as (entries & Hc & _).
  rewrite is_duplicate_eq by (rewrite Hc; discriminate).
  rewrite Hfind. reflexivity.
Qed.

(** What a successful download went through. *)
Lemma download_image_success_inv url directory check_duplicates fs msg fs' :
  download_image rt requests_get url directory check_duplicates fs
  = (Return (true, msg), fs') ->
  exists r vmsg body filename entries,
    fs !! directory <> Some NotDir
    /\ requests_get url = Return r
    /\ raise_for_status r = Return tt
    /\ validate_image_headers r = Return (true, vmsg)
    /\ content r = Return body
    /\ (check_duplicates = true ->
        List.find (has_digest (created directory fs) directory (sha256_hexdigest body))
                  (listed (created directory fs) directory) = None)
    /\ get_filename_from_url rt url (headers_get r "Content-Type") = Return filename
    /\ created directory fs !! directory = Some (Dir entries)
    /\ fs' = <[directory := Dir (write_entry filename body entries)]> (created directory fs).
Proof.
  unfold download_image, try_except.
  destruct (download_image_body rt requests_get url directory check_duplicates fs)
    as [[outcome|e] fs1] eqn:Hbody.
  2:{ intros [= H _]. pose proof (handler_fails e) as Hf. rewrite H in Hf. discriminate. }
  intros [= -> ->]. revert Hbody.
  unfold download_image_body, bind, lift, ret.
  destruct (makedirs_cases directory fs) as [[e ->]|[-> Hdir]]; [discriminate|].
  destruct (requests_get url) as [r|]; [|discriminate].
  destruct (raise_for_status r) as [[]|] eqn:Hst; [|discriminate].
  destruct (validate_image_headers r) as [[[|] vmsg]|] eqn:Hval; [|discriminate..].
  cbn [negb].
  destruct (content r) as [body|] eqn:Hcontent; [|discriminate].
  destruct (created_lookup directory fs Hdir) as (entries & Hc & _).
  assert (Htail :
    forall out fsx,
      (let filename_step := get_filename_from_url rt url (headers_get r "Content-Type") in
       match filename_step with
       | Return filename =>
           match open_wb_write rt directory filename body (created directory fs) with
           | (Return _, fs2) =>
               match truediv_pow2 (Z.of_nat (length body)) 10 with
               | Return file_size =>
                   (Return (true, "✓ Successfully fetched: " +:+ filename
                                    +:+ " (" +:+ format_1f file_size +:+ " KB)" +:+ newline
                                    +:+ "✓ Image saved to " +:+ path_join directory filename),
                    fs2)
               | Raise e => (Raise e, fs2)
               end
           | (Raise e, fs2) => (Raise e, fs2)
           end
       | Raise e => (Raise e, created directory fs)
       end) = (Return out, fsx) ->
      exists filename,
        get_filename_from_url rt url (headers_get r "Content-Type") = Return filename
        /\ fsx = <[directory := Dir (write_entry filename body entries)]> (created directory fs)).
  { intros out fsx. cbv zeta.
    destruct (get_filename_from_url rt url (headers_get r "Content-Type")) as [filename|];
      [|discriminate].
    destruct (open_wb_write_cases directory filename body (created directory fs))
      as [[e Hw]|[(entries' & Hc' & Hw)|(entries' & stored & text & Hc' & _ & Hw)]];
      rewrite Hw; [discriminate| |discriminate].
    rewrite Hc in Hc'. injection Hc' as <-.
    destruct (truediv_pow2 (Z.of_nat (length body)) 10); [|discriminate].
    intros [= _ <-]. eauto. }
  destruct check_duplicates.
  - rewrite is_duplicate_eq by (rewrite Hc; discriminate).
    destruct (List.find _ _) eqn:Hfind; [discriminate|].
    intros H. apply Htail in H as (filename & Hname & ->).
    exists r, vmsg, body, filename, entries. repeat split; auto.
  - intros H. apply Htail in H as (filename & Hname & ->).
    exists r, vmsg, body, filename, entries. repeat split; auto. discriminate.
Qed.

(** Where a download can leave the file system: untouched, with the
    directory created, or with the directory created and one file written. *)
Lemma download_image_state url directory check_duplicates fs outcome fs' :
  download_image rt requests_get url directory check_duplicates fs = (outcome, fs') ->
  fs' = fs
  \/ fs' = created directory fs
  \/ exists filename body entries,
       created directory fs !! directory = Some (Dir entries)
       /\ fs' = <[directory := Dir (write_entry filename body entries)]> (created directory fs).
Proof.
  unfold download_image, try_except.
  destruct (download_image_body rt requests_get url directory check_duplicates fs)
    as [res fs1] eqn:Hbody.
  assert (Hfs1 : fs1 = fs
                 \/ fs1 = created directory fs
                 \/ exists filename body entries,
                      created directory fs !! directory = Some (Dir entries)
                      /\ fs1 = <[directory := Dir (write_entry filename body entries)]>
                                 (created directory fs)).
  { revert Hbody. unfold download_image_body, bind, lift, ret.
    destruct (makedirs_cases directory fs) as [[e ->]|[-> Hdir]]; [intros [= _ <-]; auto|].
    destruct (requests_get url) as [r|]; [|intros [= _ <-]; auto].
    destruct (raise_for_status r) as [[]|]; [|intros [= _ <-]; auto].
    destruct (validate_image_headers r) as [[[|] vmsg]|]; cbn [negb];
      [|intros [= _ <-]; auto..].
    destruct (content r) as [body|]; [|intros [= _ <-]; auto].
    assert (Hdup : exists res,
               (if check_duplicates then is_duplicate body directory
                else fun fs => (Return (false, None), fs)) (created directory fs)
               = (res, created directory fs)).
    { destruct check_duplicates; [|eauto].
      pose proof (is_duplicate_state body directory (created directory fs)) as Hs.
      destruct (is_duplicate body directory (created directory fs)) as [res' fsd].
      cbn in Hs. subst fsd. eauto. }
    destruct Hdup as [resd ->].
    destruct resd as [[[|] dup]|]; [intros [= _ <-]; auto| |intros [= _ <-]; auto].
    destruct (get_filename_from_url rt url (headers_get r "Content-Type")) as [filename|];
      [|intros [= _ <-]; auto].
    destruct (open_wb_write_cases directory filename body (created directory fs))
      as [[e Hw]|[(entries & Hc & Hw)|(entries & stored & text & Hc & _ & Hw)]];
      rewrite Hw; [intros [= _ <-]; auto| |intros [= _ <-]; eauto 10].
    destruct (truediv_pow2 (Z.of_nat (length body)) 10); intros [= _ <-]; eauto 10. }
  destruct res; intros [= _ <-]; exact Hfs1.
Qed.

Lemma names_unique_created directory fs :
  names_unique fs -> names_unique (created directory fs).
Proof.
  intros Hu d entries. unfold created.
  destruct (fs !! directory) eqn:Hfs; [apply Hu|].
  destruct (String.eqb_spec directory d) as [->|Hne].
  - rewrite lookup_insert_eq. intros [= <-]. constructor.
  - rewrite lookup_insert_ne by assumption. apply Hu.
Qed.

Lemma names_unique_write directory name data entries fs :
  names_unique fs ->
  fs !! directory = Some (Dir entries) ->
  names_unique (<[directory := Dir (write_entry name data entries)]> fs).
Proof.
  intros Hu Hd d entries'.
  destruct (String.eqb_spec directory d) as [->|Hne].
  - rewrite lookup_insert_eq. intros [= <-]. apply NoDup_write_entry. exact (Hu _ _ Hd).
  - rewrite lookup_insert_ne by assumption. apply Hu.
Qed.

(** *** The driver *)

Lemma lower_from_app flag a b :
  exists flag', lower_from flag (a +:+ b) = lower_from flag a +:+ lower_from flag' b.
Proof.
  revert flag. induction a as [|x a IH]; intros flag; [exists flag; reflexivity|].
  change (String x a +:+ b) with (String x (a +:+ b)).
  cbn [lower_from]. destruct (IH (code x =? 195)%N) as [flag' ->].
  exists flag'. reflexivity.
Qed.

Lemma str_in_lower_from p flag s :
  all_chars (fun c => (code c <? 128)%N) p = true -> p <> "" ->
  str_in p (lower_from false s) = true -> str_in p (lower_from flag s) = true.
Proof.
  intros Hp Hne. destruct flag; [|auto].
  destruct s as [|c s]; [auto|].
  cbn [lower_from andb str_in].
  destruct (is_latin1_upper_tail c) eqn:Hc; [|auto].
  intros H. apply orb_true_iff in H as [H|H]; [|rewrite H; apply orb_true_r].
  exfalso. destruct p as [|q p]; [contradiction|].
  cbn [startswith all_chars] in H, Hp.
  apply andb_true_iff in Hp as [Hq _]. apply andb_true_iff in H as [H _].
  apply Ascii.eqb_eq in H. subst q.
  unfold is_latin1_upper_tail in Hc.
  assert (Hl : code (lower_char c) = code c).
  { unfold lower_char, is_ascii_upper. 
    destruct ((65 <=? code c) && (code c <=? 90))%N eqn:Hu; [|reflexivity].
    apply andb_true_iff in Hu as [_ Hu]. apply N.leb_le in Hu.
    apply andb_true_iff in Hc as [Hc _]. apply andb_true_iff in Hc as [Hc _].
    apply N.leb_le in Hc. lia. }
  rewrite Hl in Hq. apply N.ltb_lt in Hq.
  apply andb_true_iff in Hc as [Hc _]. apply andb_true_iff in Hc as [Hc _].
  apply N.leb_le in Hc. lia.
Qed.

Lemma str_in_app_r p a b : str_in p b = true -> str_in p (a +:+ b) = true.
Proof.
  intros H. induction a as [|x a IH]; [exact H|].
  change (str_in p (String x (a +:+ b)) = true).
  cbn [str_in]. rewrite IH. apply orb_true_r.
Qed.

Lemma str_in_app_l p a b : str_in p a = true -> str_in p (a +:+ b) = true.
Proof.
  induction a as [|x a IH].
  - destruct p; [destruct b; reflexivity|discriminate].
  - change (String x a +:+ b) with (String x (a +:+ b)).
    intros H. cbn [str_in] in H |- *. apply orb_true_iff in H as [H|H].
    + change (String x (a +:+ b)) with (String x a +:+ b).
      rewrite (startswith_app _ _ _ H). reflexivity.
    + rewrite (IH H). apply orb_true_r.
Qed.

(** A duplicate-skip message always carries the word the driver looks for. *)
Lemma duplicate_message_marked filename :
  str_in "duplicate" (lower (duplicate_message filename)) = true.
Proof.
  unfold duplicate_message, lower.
  destruct (lower_from_app false "⚠ Image already exists as: "
              (filename +:+ " (duplicate skipped)")) as [f1 ->].
  destruct (lower_from_app f1 filename " (duplicate skipped)") as [f2 ->].
  apply str_in_app_r, str_in_app_r.
  apply str_in_lower_from; [reflexivity|discriminate|reflexivity].
Qed.

Lemma count_outcome_total t outcome :
  tally_total (count_outcome t outcome) = S (tally_total t).
Proof.
  unfold count_outcome, tally_total. destruct outcome as [[|] message]; cbn; [lia|].
  destruct (str_in _ _); cbn; lia.
Qed.

(** The loop runs to its end and counts every URL once. *)
Lemma main_loop_total urls t fs :
  exists t' fs',
    main_loop rt requests_get urls t fs = (Return t', fs')
    /\ tally_total t' = (tally_total t + length urls)%nat.
Proof.
  revert t fs. induction urls as [|url rest IH]; intros t fs.
  - exists t, fs. split; [reflexivity|]. cbn. lia.
  - cbn [main_loop]. unfold bind.
    destruct (download_image_total url default_directory true fs) as (outcome & fs1 & ->).
    destruct (IH (count_outcome t outcome) fs1) as (t' & fs' & -> & Ht).
    exists t', fs'. split; [reflexivity|].
    rewrite Ht, count_outcome_total. cbn. lia.
Qed.

(** The loop fetches every URL once, in order, each from the file system
    the one before left, and counts each outcome as it comes. *)
Lemma main_loop_downloads urls t fs :
  exists outcomes fs',
    downloads rt requests_get urls fs outcomes fs'
    /\ main_loop rt requests_get urls t fs
       = (Return (fold_left count_outcome outcomes t), fs').
Proof.
  revert t fs. induction urls as [|url rest IH]; intros t fs.
  - exists [], fs. split; [constructor|reflexivity].
  - cbn [main_loop]. unfold bind.
    destruct (download_image_total url default_directory true fs) as (outcome & fs1 & Hd).
    destruct (IH (count_outcome t outcome) fs1) as (outcomes & fs' & Hrest & Hloop).
    exists (outcome :: outcomes), fs'. split.
    + econstructor; [exact Hd|exact Hrest].
    + rewrite Hd. exact Hloop.
Qed.

Lemma downloads_length urls fs outcomes fs' :
  downloads rt requests_get urls fs outcomes fs' -> length outcomes = length urls.
Proof. induction 1; cbn [length]; congruence. Qed.

Lemma fold_count_outcome outcomes t :
  success_count (fold_left count_outcome outcomes t)
  = (success_count t + length (List.filter (fun outcome => fst outcome) outcomes))%nat
  /\ (skip_count (fold_left count_outcome outcomes t)
      + fail_count (fold_left count_outcome outcomes t)
      = skip_count t + fail_count t
        + length (List.filter (fun outcome => negb (fst outcome)) outcomes))%nat.
Proof.
  revert t. induction outcomes as [|[success message] rest IH]; intros t.
  - cbn. lia.
  - cbn [fold_left List.filter fst]. destruct (IH (count_outcome t (success, message))) as [-> ->].
    unfold count_outcome. destruct success; cbn [negb length success_count skip_count fail_count].
    + lia.
    + destruct (str_in _ _); cbn [success_count skip_count fail_count]; lia.
Qed.

End FetcherFacts.

Section Rejection.
Import Py Hashlib Urllib Os Requests.

Lemma int_of_str_nonempty cl n : int_of_str cl = Return n -> truthy cl = true.
Proof. destruct cl; [discriminate|reflexivity]. Qed.

(** C2, as amended.  When the response has no error status and declares
    a content-length that converts to an integer above 52,428,800 and
    inside the float range, the download returns a validation failure
    without reading the body or writing a file: the file system is left
    with the target directory created if it was missing and is otherwise
    unchanged. *)
Theorem download_image_rejects_oversized
    rt requests_get url directory check_duplicates fs r cl n :
  fs !! directory <> Some NotDir ->
  directory <> "" ->
  requests_get url = Return r ->
  raise_for_status r = Return tt ->
  headers_get r "Content-Length" = Some cl ->
  int_of_str cl = Return n ->
  (size_limit_bytes < n < float_bound 20)%Z ->
  exists reason,
    download_image rt requests_get url directory check_duplicates fs
    = (Return (false, "✗ Validation failed: " +:+ reason), created directory fs)
    /\ validate_image_headers r = Return (false, reason)
    /\ (forall d name, entry_at (created directory fs) d name = entry_at fs d name)
    /\ (forall d, d <> directory -> created directory fs !! d = fs !! d)
    /\ (is_Some (fs !! directory) -> created directory fs = fs).
Proof.
  intros Hdir Hne Hget Hst Hcl Hint Hn.
  assert (0 < size_limit_bytes)%Z by reflexivity.
  assert (Hval : exists reason, validate_image_headers r = Return (false, reason)).
  { rewrite validate_image_headers_eq, Hcl, Hint, (int_of_str_nonempty _ _ Hint).
    destruct (negb _); [eauto|].
    destruct (Z.ltb_spec (Z.abs n) (float_bound 20)) as [_|Hb]; [|lia].
    destruct (Z.ltb_spec size_limit_bytes n) as [_|Hb]; [eauto|lia]. }
  destruct Hval as [reason Hval]. exists reason.
  split; [|split; [exact Hval|split; [|split]]].
  - apply download_image_invalid with (r := r); auto using makedirs_ok.
  - intros d name. apply created_entry_at.
  - intros d Hd. apply created_other. exact Hd.
  - apply created_present.
Qed.

Lemma download_image_rejects_oversized_witness :
  exists reason,
    download_image example_runtime example_network "http://x/big.png" "Fetched_Images" true
      example_directory
    = (Return (false, "✗ Validation failed: " +:+ reason),
       created "Fetched_Images" example_directory)
    /\ validate_image_headers (image_response "image/png" (Some "60000000") [])
       = Return (false, reason)
    /\ (forall d name,
           entry_at (created "Fetched_Images" example_directory) d name
           = entry_at example_directory d name)
    /\ (forall d, d <> "Fetched_Images" ->
                  created "Fetched_Images" example_directory !! d = example_directory !! d)
    /\ (is_Some (example_directory !! "Fetched_Images") ->
        created "Fetched_Images" example_directory = example_directory).
Proof.
  apply (download_image_rejects_oversized example_runtime example_network
           "http://x/big.png" "Fetched_Images" true example_directory
           (image_response "image/png" (Some "60000000") []) "60000000" 60000000).
  - vm_compute. discriminate.
  - discriminate.
  - reflexivity.
  - reflexivity.
  - reflexivity.
  - reflexivity.
  - split; vm_compute; reflexivity.
Defined.

(** C2 as it is written fails: a rejected download into a directory that
    does not exist yet leaves the file system changed, the directory
    having been created before the request was made. *)
Lemma download_image_oversized_creates_directory :
  fst (download_image example_runtime example_network "http://x/big.png"
         "Fetched_Images" true ∅)
  = Return (false, "✗ Validation failed: File size (57.2MB) exceeds safety limit of 50MB")
  /\ (∅ : filesystem) !! "Fetched_Images" = None
  /\ snd (download_image example_runtime example_network "http://x/big.png"
            "Fetched_Images" true ∅) !! "Fetched_Images" = Some (Dir [])
  /\ snd (download_image example_runtime example_network "http://x/big.png"
            "Fetched_Images" true ∅) <> ∅.
Proof.
  split; [vm_compute; reflexivity|].
  split; [reflexivity|].
  split; [vm_compute; reflexivity|].
  intros H.
  assert (Hl : snd (download_image example_runtime example_network "http://x/big.png"
                      "Fetched_Images" true ∅) !! "Fetched_Images" = Some (Dir []))
    by (vm_compute; reflexivity).
  rewrite H in Hl. discriminate.
Qed.

End Rejection.

Section Driver.
Import Py Hashlib Urllib Os Requests.

Lemma classify_duplicate_message filename :
  classify (false, duplicate_message filename) = DuplicateSkip.
Proof.
  unfold classify, count_outcome. rewrite duplicate_message_marked. reflexivity.
Qed.

Lemma count_outcome_classify t outcome :
  count_outcome t outcome =
    match classify outcome with
    | Success => mktally (S (success_count t)) (skip_count t) (fail_count t)
    | DuplicateSkip => mktally (success_count t) (S (skip_count t)) (fail_count t)
    | Failure => mktally (success_count t) (skip_count t) (S (fail_count t))
    end.
Proof.
  unfold classify, count_outcome. destruct outcome as [[|] message]; [reflexivity|].
  destruct (str_in _ _); reflexivity.
Qed.

(** After a successful download the body is a regular file of the
    directory, so a scan for its digest finds a name. *)
Lemma written_body_is_found rt requests_get url directory check fs msg fs1 r body :
  download_image rt requests_get url directory check fs = (Return (true, msg), fs1) ->
  requests_get url = Return r ->
  content r = Return body ->
  exists entries filename,
    fs1 !! directory = Some (Dir entries)
    /\ List.find (has_digest fs1 directory (sha256_hexdigest body)) (listed fs1 directory)
       = Some filename
    /\ file_has_digest fs1 directory (sha256_hexdigest body) filename.
Proof.
  intros Hok Hget Hbody.
  apply download_image_success_inv in Hok
    as (r' & vmsg & body' & written & entries & _ & Hget' & _ & _ & Hbody' & _ & _ & Hc & ->).
  rewrite Hget in Hget'. injection Hget' as <-.
  rewrite Hbody in Hbody'. injection Hbody' as <-.
  set (fs1 := <[directory := Dir (write_entry written body entries)]> (created directory fs)).
  assert (Hd : fs1 !! directory = Some (Dir (write_entry written body entries)))
    by apply lookup_insert_eq.
  assert (Hw : has_digest fs1 directory (sha256_hexdigest body) written = true).
  { unfold has_digest, entry_at. rewrite Hd, lookup_write_entry. apply String.eqb_refl. }
  destruct (List.find (has_digest fs1 directory (sha256_hexdigest body)) (listed fs1 directory))
    as [filename|] eqn:Hfind.
  - exists (write_entry written body entries), filename. repeat split; [exact Hd|].
    apply List.find_some in Hfind as [_ Hf]. apply has_digest_true. exact Hf.
  - exfalso. rewrite find_none_iff in Hfind.
    assert (In written (listed fs1 directory)).
    { apply entry_at_listed with (nd := RegularFile body).
      unfold entry_at. rewrite Hd. apply lookup_write_entry. }
    rewrite (Hfind written H) in Hw. discriminate.
Qed.

(** C6, as amended.  If a download succeeds, a second download into the
    same directory, with duplicate checking, of a response that carries the
    same bytes and itself passes the status and header checks is reported
    as a duplicate skip and counted as one; fetching one URL twice, when
    the first fetch succeeds, gives the tally 1 success, 1 skip, 0
    failures. *)
Theorem second_download_is_duplicate_skip :
  (forall rt net1 net2 url1 url2 directory check1 fs msg fs1 r1 r2 body vmsg,
      download_image rt net1 url1 directory check1 fs = (Return (true, msg), fs1) ->
      net1 url1 = Return r1 ->
      content r1 = Return body ->
      net2 url2 = Return r2 ->
      content r2 = Return body ->
      raise_for_status r2 = Return tt ->
      validate_image_headers r2 = Return (true, vmsg) ->
      exists filename,
        download_image rt net2 url2 directory true fs1
        = (Return (false, duplicate_message filename), fs1)
        /\ file_has_digest fs1 directory (sha256_hexdigest body) filename
        /\ classify (false, duplicate_message filename) = DuplicateSkip)
  /\ (forall rt requests_get url fs msg fs1,
        download_image rt requests_get url default_directory true fs
        = (Return (true, msg), fs1) ->
        main rt requests_get [url; url] fs = (Return (Some (mktally 1 1 0)), fs1)).
Proof.
  assert (Htwo : forall rt net1 net2 url1 url2 directory check1 fs msg fs1 r1 r2 body vmsg,
      download_image rt net1 url1 directory check1 fs = (Return (true, msg), fs1) ->
      net1 url1 = Return r1 ->
      content r1 = Return body ->
      net2 url2 = Return r2 ->
      content r2 = Return body ->
      raise_for_status r2 = Return tt ->
      validate_image_headers r2 = Return (true, vmsg) ->
      exists filename,
        download_image rt net2 url2 directory true fs1
        = (Return (false, duplicate_message filename), fs1)
        /\ file_has_digest fs1 directory (sha256_hexdigest body) filename
        /\ classify (false, duplicate_message filename) = DuplicateSkip).
  { intros rt net1 net2 url1 url2 directory check1 fs msg fs1 r1 r2 body vmsg
           Hok Hget1 Hbody1 Hget2 Hbody2 Hst2 Hval2.
    destruct (written_body_is_found _ _ _ _ _ _ _ _ _ _ Hok Hget1 Hbody1)
      as (entries & filename & Hd & Hfind & Hdigest).
    destruct (makedirs_present _ _ _ Hd) as [Hmk Hcreated].
    exists filename. split; [|split; [exact Hdigest|apply classify_duplicate_message]].
    rewrite <- Hcreated at 2.
    apply download_image_duplicate with (r := r2) (vmsg := vmsg) (body := body); auto.
    - rewrite Hd. discriminate.
    - rewrite Hcreated. exact Hfind. }
  split; [exact Htwo|].
  intros rt requests_get url fs msg fs1 Hok.
  pose proof Hok as Hinv.
  apply download_image_success_inv in Hinv
    as (r & vmsg & body & written & entries & _ & Hget & Hst & Hval & Hbody & _).
  destruct (Htwo rt requests_get requests_get url url default_directory true fs msg fs1
              r r body vmsg Hok Hget Hbody Hget Hbody Hst Hval)
    as (filename & Hsecond & _ & _).
  unfold main. cbn [main_loop]. unfold bind, ret.
  rewrite Hok, Hsecond.
  rewrite !count_outcome_classify, classify_duplicate_message. reflexivity.
Qed.

Lemma second_download_is_duplicate_skip_witness :
  (exists filename,
      download_image example_runtime example_network "http://x/a.png" "Fetched_Images" true
        example_after_first
      = (Return (false, duplicate_message filename), example_after_first)
      /\ file_has_digest example_after_first "Fetched_Images"
           (sha256_hexdigest (list_byte_of_string "abc")) filename
      /\ classify (false, duplicate_message filename) = DuplicateSkip)
  /\ main example_runtime example_network ["http://x/a.png"; "http://x/a.png"] ∅
     = (Return (Some (mktally 1 1 0)), example_after_first).
Proof.
  split.
  - eapply (proj1 second_download_is_duplicate_skip example_runtime
              example_network example_network "http://x/a.png" "http://x/a.png"
              "Fetched_Images" true ∅);
      [vm_compute; reflexivity | reflexivity..].
  - eapply (proj2 second_download_is_duplicate_skip).
    vm_compute. reflexivity.
Defined.

(** C6 as it is written fails: the second response carries the same bytes
    as the first, but with content-type text/html; it is stopped by the
    validator and counted as a failure, not as a duplicate skip. *)
Lemma same_bytes_failing_validation_not_skipped :
  download_image example_runtime example_network "http://x/a.png" "Fetched_Images" true ∅
  = (Return (true, "✓ Successfully fetched: a.png (0.0 KB)" +:+ newline
                     +:+ "✓ Image saved to Fetched_Images/a.png"),
     example_after_first)
  /\ rbind (example_network "http://x/a.png") content
     = rbind (example_network "http://x/page") content
  /\ download_image example_runtime example_network "http://x/page" "Fetched_Images" true
       example_after_first
     = (Return (false, "✗ Validation failed: Content-Type 'text/html' is not an image"),
        example_after_first)
  /\ classify (false, "✗ Validation failed: Content-Type 'text/html' is not an image")
     = Failure.
Proof. split; [|split; [|split]]; vm_compute; reflexivity. Qed.




End Driver.

Section ErrorsAndNames.
Import Py Hashlib Urllib Os Requests.

(** C8.  Whatever is raised while one URL is processed is caught inside
    [download_image] and turned into a failure with a message: the
    download always returns an outcome, each class of error has its
    message, and the driver's loop reaches the end of its list, counting
    every URL once, whatever fails on the way.  The loop's tally is that
    of the downloads themselves: every URL of the list is fetched once,
    in order, from the file system the one before left, and the outcome
    of each is counted as it comes, a success for a true flag and a skip
    or a failure for a false one. *)
Theorem download_image_never_raises :
  (forall rt requests_get url directory check_duplicates fs,
      exists outcome fs',
        download_image rt requests_get url directory check_duplicates fs
        = (Return outcome, fs'))
  /\ (forall rt requests_get url directory check_duplicates fs e fs',
        download_image_body rt requests_get url directory check_duplicates fs
        = (Raise e, fs') ->
        download_image rt requests_get url directory check_duplicates fs
        = (Return (download_image_handler e), fs')
        /\ fst (download_image_handler e) = false
        /\ snd (download_image_handler e) <> "")
  /\ (forall rt requests_get url directory check_duplicates fs e,
        makedirs directory fs = (Return tt, created directory fs) ->
        requests_get url = Raise e ->
        download_image rt requests_get url directory check_duplicates fs
        = (Return (download_image_handler e), created directory fs))
  /\ (forall text status reason,
        download_image_handler (Timeout text)
        = (false, "✗ Connection timeout: Server took too long to respond")
        /\ download_image_handler (ConnectionError text)
           = (false, "✗ Connection error: Could not reach the server")
        /\ download_image_handler (HTTPError status reason)
           = (false, "✗ HTTP error: " +:+ str_of_int status +:+ " - " +:+ reason)
        /\ download_image_handler (RequestException text)
           = (false, "✗ Request error: " +:+ text)
        /\ download_image_handler (OSError text)
           = (false, "✗ File error: Could not save image - " +:+ text)
        /\ download_image_handler (OtherException text)
           = (false, "✗ Unexpected error: " +:+ text))
  /\ (forall rt requests_get urls t fs,
        exists t' fs',
          main_loop rt requests_get urls t fs = (Return t', fs')
          /\ tally_total t' = (tally_total t + length urls)%nat)
  /\ (forall rt requests_get urls fs,
        urls <> [] ->
        exists t fs',
          main rt requests_get urls fs = (Return (Some t), fs')
          /\ tally_total t = length urls)
  /\ (forall rt requests_get urls t fs,
        exists outcomes fs',
          downloads rt requests_get urls fs outcomes fs'
          /\ length outcomes = length urls
          /\ main_loop rt requests_get urls t fs
             = (Return (fold_left count_outcome outcomes t), fs')
          /\ success_count (fold_left count_outcome outcomes t)
             = (success_count t + length (List.filter (fun outcome => fst outcome) outcomes))%nat
          /\ (skip_count (fold_left count_outcome outcomes t)
              + fail_count (fold_left count_outcome outcomes t)
              = skip_count t + fail_count t
                + length (List.filter (fun outcome => negb (fst outcome)) outcomes))%nat).
Proof.
  split; [|split; [|split; [|split; [|split; [|split]]]]].
  - exact download_image_total.
  - intros rt requests_get url directory check_duplicates fs e fs' H.
    split; [apply download_image_raise; exact H|].
    split; [apply handler_fails|apply handler_message].
  - intros rt requests_get url directory check_duplicates fs e Hmk Hget.
    apply download_image_raise.
    unfold download_image_body, bind, lift. rewrite Hmk, Hget. reflexivity.
  - intros. repeat split.
  - exact main_loop_total.
  - intros rt requests_get urls fs Hne.
    destruct (main_loop_total rt requests_get urls (mktally 0 0 0) fs)
      as (t & fs' & Hloop & Ht).
    exists t, fs'. split; [|exact Ht].
    destruct urls as [|url rest]; [congruence|].
    unfold main, bind, ret. rewrite Hloop. reflexivity.
  - intros rt requests_get urls t fs.
    destruct (main_loop_downloads rt requests_get urls t fs)
      as (outcomes & fs' & Hrun & Hloop).
    exists outcomes, fs'. split; [exact Hrun|].
    split; [exact (downloads_length rt requests_get _ _ _ _ Hrun)|].
    split; [exact Hloop|]. apply fold_count_outcome.
Qed.

Lemma download_image_never_raises_witness :
  (download_image example_runtime example_network "http://down/a.png" "Fetched_Images" true ∅
   = (Return (download_image_handler (ConnectionError "Max retries exceeded")),
      created "Fetched_Images" ∅))
  /\ exists t fs',
      main example_runtime example_network
        ["http://slow/a.png"; "http://x/gone.png"; "http://x/a.png"] ∅
      = (Return (Some t), fs')
      /\ tally_total t = length ["http://slow/a.png"; "http://x/gone.png"; "http://x/a.png"].
Proof.
  split.
  - apply (proj1 (proj2 (proj2 download_image_never_raises))); reflexivity.
  - apply (proj1 (proj2 (proj2 (proj2 (proj2 (proj2 download_image_never_raises)))))).
    discriminate.
Defined.

(** A timeout and an HTTP error on the first two URLs do not keep the
    third from being fetched. *)
Example main_continues_after_failures :
  fst (main example_runtime example_network
         ["http://slow/a.png"; "http://x/gone.png"; "http://x/a.png"] ∅)
  = Return (Some (mktally 1 0 2))
  /\ fst (download_image example_runtime example_network "http://slow/a.png"
            "Fetched_Images" true ∅)
     = Return (false, "✗ Connection timeout: Server took too long to respond")
  /\ fst (download_image example_runtime example_network "http://x/gone.png"
            "Fetched_Images" true ∅)
     = Return (false, "✗ HTTP error: 404 - Not Found").
Proof. split; [|split]; vm_compute; reflexivity. Qed.

(** C9, as amended.  Every download keeps names unique within each
    directory.  A successful download with duplicate checking writes a
    body whose digest no regular file of the directory had, under the
    derived name, and changes no other name and no other directory; what
    the derived name held before is replaced. *)
Theorem download_image_keeps_names_unique :
  (forall rt requests_get url directory check_duplicates fs outcome fs',
      download_image rt requests_get url directory check_duplicates fs = (outcome, fs') ->
      names_unique fs -> names_unique fs')
  /\ (forall rt requests_get url directory fs msg fs',
        download_image rt requests_get url directory true fs = (Return (true, msg), fs') ->
        exists r filename body,
          requests_get url = Return r
          /\ content r = Return body
          /\ get_filename_from_url rt url (headers_get r "Content-Type") = Return filename
          /\ entry_at fs' directory filename = Some (RegularFile body)
          /\ (forall name, ~ file_has_digest fs directory (sha256_hexdigest body) name)
          /\ (forall name, name <> filename ->
                           entry_at fs' directory name = entry_at fs directory name)
          /\ (forall d, d <> directory -> fs' !! d = fs !! d)).
Proof.
  split.
  - intros rt requests_get url directory check_duplicates fs outcome fs' Hrun Hu.
    apply download_image_state in Hrun
      as [->|[->|(filename & body & entries & Hc & ->)]].
    + exact Hu.
    + apply names_unique_created. exact Hu.
    + apply names_unique_write; [apply names_unique_created; exact Hu|exact Hc].
  - intros rt requests_get url directory fs msg fs' Hrun.
    apply download_image_success_inv in Hrun
      as (r & vmsg & body & filename & entries & Hdir & Hget & _ & _ & Hbody & Hnodup
          & Hname & Hc & ->).
    exists r, filename, body. repeat split; try assumption.
    + unfold entry_at. rewrite lookup_insert_eq. apply lookup_write_entry.
    + intros name Hd. specialize (Hnodup eq_refl). rewrite find_none_iff in Hnodup.
      destruct Hd as (data & He & Hdig).
      rewrite <- (created_entry_at directory) in He.
      pose proof (entry_at_listed _ _ _ _ He) as Hin.
      specialize (Hnodup name Hin). unfold has_digest in Hnodup.
      rewrite He, Hdig, String.eqb_refl in Hnodup. discriminate.
    + intros name Hne. unfold entry_at at 1. rewrite lookup_insert_eq.
      rewrite lookup_write_entry_ne by assumption.
      rewrite <- (created_entry_at directory fs directory name).
      unfold entry_at. rewrite Hc. reflexivity.
    + intros d Hd. rewrite lookup_insert_ne by congruence.
      apply created_other. exact Hd.
Qed.

Lemma example_directory_names_unique : names_unique example_directory.
Proof.
  intros d entries. unfold example_directory.
  destruct (String.eqb_spec "Fetched_Images" d) as [<-|Hne].
  - rewrite lookup_singleton_eq. intros [= <-].
    apply (bool_decide_unpack _). vm_compute. exact I.
  - rewrite lookup_singleton_ne by assumption. discriminate.
Qed.

Lemma download_image_keeps_names_unique_witness :
  names_unique
    (snd (download_image example_runtime example_network "http://y/a.png"
            "Fetched_Images" true example_directory))
  /\ exists r filename body,
      example_network "http://y/a.png" = Return r
      /\ content r = Return body
      /\ get_filename_from_url example_runtime "http://y/a.png"
           (headers_get r "Content-Type") = Return filename
      /\ entry_at
           (<["Fetched_Images" :=
                Dir [ ("a.png", RegularFile (list_byte_of_string "xyz")) ]]> ∅)
           "Fetched_Images" filename = Some (RegularFile body)
      /\ (forall name,
             ~ file_has_digest example_after_first "Fetched_Images"
                 (sha256_hexdigest body) name)
      /\ (forall name, name <> filename ->
                       entry_at
                         (<["Fetched_Images" :=
                              Dir [ ("a.png", RegularFile (list_byte_of_string "xyz")) ]]> ∅)
                         "Fetched_Images" name
                       = entry_at example_after_first "Fetched_Images" name)
      /\ (forall d, d <> "Fetched_Images" ->
                    (<["Fetched_Images" :=
                         Dir [ ("a.png", RegularFile (list_byte_of_string "xyz")) ]]> ∅
                     : filesystem) !! d
                    = example_after_first !! d).
Proof.
  split.
  - eapply (proj1 download_image_keeps_names_unique);
      [apply surjective_pairing|exact example_directory_names_unique].
  - eapply (proj2 download_image_keeps_names_unique example_runtime example_network
              "http://y/a.png" "Fetched_Images" example_after_first).
    vm_compute. reflexivity.
Defined.

(** C9 as it is written fails: two URLs that end in the same file name and
    carry different bytes both succeed, and the second download replaces
    what the first one wrote. *)
Lemma download_image_overwrites_same_name :
  download_image example_runtime example_network "http://x/a.png" "Fetched_Images" true ∅
  = (Return (true, "✓ Successfully fetched: a.png (0.0 KB)" +:+ newline
                     +:+ "✓ Image saved to Fetched_Images/a.png"),
     example_after_first)
  /\ entry_at example_after_first "Fetched_Images" "a.png"
     = Some (RegularFile (list_byte_of_string "abc"))
  /\ fst (download_image example_runtime example_network "http://y/a.png"
            "Fetched_Images" true example_after_first)
     = Return (true, "✓ Successfully fetched: a.png (0.0 KB)" +:+ newline
                       +:+ "✓ Image saved to Fetched_Images/a.png")
  /\ entry_at
       (snd (download_image example_runtime example_network "http://y/a.png"
               "Fetched_Images" true example_after_first))
       "Fetched_Images" "a.png"
     = Some (RegularFile (list_byte_of_string "xyz"))
  /\ list_byte_of_string "abc" <> list_byte_of_string "xyz"
  /\ fst (main example_runtime example_network ["http://x/a.png"; "http://y/a.png"] ∅)
     = Return (Some (mktally 2 0 0)).
Proof.
  split; [|split; [|split; [|split; [|split]]]];
    try (vm_compute; reflexivity).
  vm_compute. discriminate.
Qed.

End ErrorsAndNames.

(** * Further properties of the program *)

(** ** The shape of file names *)

Section FilenameShape.
Import Py Urllib Requests.
Local Open Scope Z_scope.








End FilenameShape.

(** ** Hashing files and finding copies *)

Section HashingFiles.
Import Py Hashlib Urllib Os Requests.

(** Reading a file in blocks of 4096 bytes hashes all of it: for a regular
    file of any length [get_file_hash] returns the digest
    [hashlib.sha256] gives for the whole content; for a name that is
    missing or denotes a directory it raises [OSError]; it never changes
    the file system. *)
Theorem get_file_hash_spec directory filename fs :
  get_file_hash directory filename fs =
    (match entry_at fs directory filename with
     | Some (RegularFile data) => Return (sha256_hexdigest data)
     | Some Subdirectory =>
         Raise (errno "21" "Is a directory" (path_join directory filename))
     | None =>
         Raise (errno "2" "No such file or directory" (path_join directory filename))
     end, fs).
Proof.
  destruct (entry_at fs directory filename) as [[data|]|] eqn:He.
  - apply get_file_hash_regular. exact He.
  - unfold get_file_hash, bind, open_rb. rewrite He. reflexivity.
  - unfold get_file_hash, bind, open_rb. rewrite He. reflexivity.
Qed.

(** A regular file holding exactly the candidate bytes is always found:
    the detector returns a match, and the file it names has the
    candidate's digest. *)
Theorem is_duplicate_finds_identical_bytes content directory fs name :
  entry_at fs directory name = Some (RegularFile content) ->
  exists filename data,
    is_duplicate content directory fs = (Return (true, Some filename), fs)
    /\ entry_at fs directory filename = Some (RegularFile data)
    /\ sha256_hexdigest data = sha256_hexdigest content.
Proof.
  intros He.
  assert (Hdir : fs !! directory <> Some NotDir).
  { intros Hn. unfold entry_at in He. rewrite Hn in He. discriminate. }
  rewrite (is_duplicate_eq _ _ _ Hdir).
  destruct (List.find _ _) as [filename|] eqn:Hfind.
  - apply List.find_some in Hfind as [_ Hd].
    apply has_digest_true in Hd as (data & Hdata & Hdig). eauto.
  - exfalso. rewrite find_none_iff in Hfind.
    specialize (Hfind name (entry_at_listed _ _ _ _ He)).
    unfold has_digest in Hfind. rewrite He, String.eqb_refl in Hfind. discriminate.
Qed.

Lemma is_duplicate_finds_identical_bytes_witness :
  exists filename data,
    is_duplicate (list_byte_of_string "abc") "Fetched_Images" example_directory
    = (Return (true, Some filename), example_directory)
    /\ entry_at example_directory "Fetched_Images" filename = Some (RegularFile data)
    /\ sha256_hexdigest data = sha256_hexdigest (list_byte_of_string "abc").
Proof.
  apply (is_duplicate_finds_identical_bytes _ _ _ "copy.png"). reflexivity.
Defined.

End HashingFiles.

(** ** Facts about downloads and runs of the driver *)

Section RunFacts.
Import Py Hashlib Urllib Os Requests.
Context (rt : runtime) (requests_get : string -> result response).

Lemma find_none_no_digest fs directory digest :
  (forall name, ~ file_has_digest fs directory digest name) ->
  List.find (has_digest fs directory digest) (listed fs directory) = None.
Proof.
  intros H. apply find_none_iff. intros y _.
  destruct (has_digest fs directory digest y) eqn:E; [|reflexivity].
  apply has_digest_true in E. destruct (H y E).
Qed.

Lemma file_has_digest_created fs directory d digest name :
  file_has_digest (created directory fs) d digest name
  <-> file_has_digest fs d digest name.
Proof. unfold file_has_digest. rewrite created_entry_at. reflexivity. Qed.

(** What [open] for writing accepts as a name in a directory. *)
Lemma open_wb_write_ok directory filename data fs entries :
  fs !! directory = Some (Dir entries) ->
  all_chars (fun c => negb (is_nul c)) filename = true ->
  filename <> "." -> filename <> ".." ->
  lookup_entry filename entries <> Some Subdirectory ->
  (String.length filename <= name_max)%nat ->
  write_fault rt directory filename data = None ->
  open_wb_write rt directory filename data fs
  = (Return tt, <[directory := Dir (write_entry filename data entries)]> fs).
Proof.
  intros Hd Hnul H1 H2 Hsub Hlen Hw. unfold open_wb_write. rewrite Hnul, Hd. cbn [negb].
  destruct (String.eqb_spec filename "."); [contradiction|].
  destruct (String.eqb_spec filename ".."); [contradiction|]. cbn [orb].
  destruct (Nat.ltb_spec name_max (String.length filename)); [lia|].
  rewrite Hw.
  destruct (lookup_entry filename entries) as [[x|]|]; [reflexivity|contradiction|reflexivity].
Qed.


Lemma listed_created directory fs d : listed (created directory fs) d = listed fs d.
Proof.
  unfold listed, created. destruct (fs !! directory) eqn:Hfs; [reflexivity|].
  destruct (String.eqb_spec directory d) as [<-|Hne].
  - rewrite lookup_insert_eq, Hfs. reflexivity.
  - rewrite lookup_insert_ne by assumption. reflexivity.
Qed.

Lemma listed_write directory filename body entries fs :
  fs !! directory = Some (Dir entries) ->
  listed (<[directory := Dir (write_entry filename body entries)]> fs) directory
  = if existsb (String.eqb filename) (listed fs directory)
    then listed fs directory else listed fs directory ++ [filename].
Proof.
  intros Hd. unfold listed. rewrite lookup_insert_eq, Hd. apply names_write_entry.
Qed.

Lemma listed_write_other directory filename body entries fs d :
  d <> directory ->
  listed (<[directory := Dir (write_entry filename body entries)]> fs) d = listed fs d.
Proof. intros Hd. unfold listed. rewrite lookup_insert_ne by congruence. reflexivity. Qed.

(** One download changes no directory but its target, and removes no name
    from it. *)
Lemma download_image_frame url directory check_duplicates fs outcome fs' :
  download_image rt requests_get url directory check_duplicates fs = (outcome, fs') ->
  (forall d, d <> directory -> fs' !! d = fs !! d)
  /\ (forall name, In name (listed fs directory) -> In name (listed fs' directory)).
Proof.
  intros Hrun. apply download_image_state in Hrun
    as [->|[->|(filename & body & entries & Hc & ->)]].
  - split; auto.
  - split; [intros d Hd; apply created_other; exact Hd|].
    intros name. rewrite listed_created. auto.
  - split.
    + intros d Hd. rewrite lookup_insert_ne by congruence. apply created_other. exact Hd.
    + intros name Hin. rewrite (listed_write _ _ _ _ _ Hc), listed_created.
      destruct (existsb _ _); [exact Hin|]. apply in_or_app. left. exact Hin.
Qed.

(** A download that reports no success leaves the file system as it was,
    up to the creation of the target directory, unless the write of the
    file failed half-way. *)
Lemma failed_download_state url directory check_duplicates fs message fs' :
  (forall r body,
      requests_get url = Return r -> content r = Return body ->
      (Z.of_nat (length body) < 2 ^ 53)%Z) ->
  download_image rt requests_get url directory check_duplicates fs
  = (Return (false, message), fs') ->
  fs' = fs \/ fs' = created directory fs
  \/ exists r body filename entries stored text,
       requests_get url = Return r
       /\ content r = Return body
       /\ get_filename_from_url rt url (headers_get r "Content-Type") = Return filename
       /\ created directory fs !! directory = Some (Dir entries)
       /\ write_fault rt directory filename body = Some (stored, text)
       /\ message = "✗ File error: Could not save image - " +:+ text
       /\ fs' = <[directory := Dir (write_entry filename stored entries)]>
                  (created directory fs).
Proof.
  intros Hlen. unfold download_image, try_except.
  destruct (download_image_body rt requests_get url directory check_duplicates fs)
    as [res fs1] eqn:Hbody.
  assert (Hfs1 : (exists m, res = Return (true, m))
                 \/ fs1 = fs \/ fs1 = created directory fs
                 \/ exists r body filename entries stored text,
                      requests_get url = Return r
                      /\ content r = Return body
                      /\ get_filename_from_url rt url (headers_get r "Content-Type")
                         = Return filename
                      /\ created directory fs !! directory = Some (Dir entries)
                      /\ write_fault rt directory filename body = Some (stored, text)
                      /\ res = Raise (OSError text)
                      /\ fs1 = <[directory := Dir (write_entry filename stored entries)]>
                                 (created directory fs)).
  { revert Hbody. unfold download_image_body, bind, lift, ret.
    destruct (makedirs_cases directory fs) as [[e ->]|[-> Hdir]];
      [intros [= _ <-]; auto|].
    destruct (requests_get url) as [r|] eqn:Hget; [|intros [= _ <-]; auto].
    destruct (raise_for_status r) as [[]|]; [|intros [= _ <-]; auto].
    destruct (validate_image_headers r) as [[[|] vmsg]|]; cbn [negb];
      [|intros [= _ <-]; auto..].
    destruct (content r) as [body|] eqn:Hcontent; [|intros [= _ <-]; auto].
    assert (Hdup : exists res,
               (if check_duplicates then is_duplicate body directory
                else fun fs => (Return (false, None), fs)) (created directory fs)
               = (res, created directory fs)).
    { destruct check_duplicates; [|eauto].
      pose proof (is_duplicate_state body directory (created directory fs)) as Hs.
      destruct (is_duplicate body directory (created directory fs)) as [res' fsd].
      cbn in Hs. subst fsd. eauto. }
    destruct Hdup as [resd ->].
    destruct resd as [[[|] dup]|]; [intros [= _ <-]; auto| |intros [= _ <-]; auto].
    destruct (get_filename_from_url rt url (headers_get r "Content-Type"))
      as [filename|] eqn:Hname; [|intros [= _ <-]; auto].
    destruct (open_wb_write_cases rt directory filename body (created directory fs))
      as [[e Hw]|[(entries & Hc & Hw)|(entries & stored & text & Hc & Hf & Hw)]];
      rewrite Hw; [intros [= _ <-]; auto| |].
    - rewrite truediv_pow2_spec by lia.
      assert (Hbound : (2 ^ 53 < float_bound 10)%Z) by (vm_compute; reflexivity).
      pose proof (Hlen r body eq_refl Hcontent).
      destruct (Z.ltb_spec (Z.abs (Z.of_nat (length body))) (float_bound 10)); [|lia].
      intros [= <- _]. left. eauto.
    - intros [= <- <-]. right; right; right.
      exists r, body, filename, entries, stored, text. repeat split; auto. }
  destruct Hfs1 as [[m' ->]|[->|[->|H]]].
  - intros [=].
  - destruct res; intros [= _ <-]; auto.
  - destruct res; intros [= _ <-]; auto.
  - destruct H as (r & body & filename & entries & stored & text
                   & Hget & Hcontent & Hname & Hc & Hf & -> & ->).
    cbn [download_image_handler ret]. intros [= <- <-].
    right; right. exists r, body, filename, entries, stored, text.
    repeat split; auto.
Qed.

End RunFacts.

Section PromptFacts.
Import Py Hashlib Urllib Os Requests.

(** The loop of the multiple mode stops at the first line that is blank
    once stripped, and keeps the stripped lines before it. *)
Lemma read_many_until_blank lines blank rest :
  Forall (fun line => strip line <> "") lines ->
  strip blank = "" ->
  read_many (lines ++ blank :: rest) = Return (map strip lines, rest).
Proof.
  intros Hlines Hblank. induction Hlines as [|line lines Hline _ IH].
  - cbn [app read_many map]. rewrite Hblank. reflexivity.
  - cbn [app read_many map]. apply truthy_true in Hline. rewrite Hline. cbn [negb].
    rewrite IH. reflexivity.
Qed.

Lemma read_many_eof lines :
  Forall (fun line => strip line <> "") lines ->
  read_many lines = Raise eof_error.
Proof.
  intros Hlines. induction Hlines as [|line lines Hline _ IH]; [reflexivity|].
  cbn [read_many]. apply truthy_true in Hline. rewrite Hline. cbn [negb].
  rewrite IH. reflexivity.
Qed.

End PromptFacts.

(** ** The paths through a download *)

Section DownloadPaths.
Import Py Hashlib Urllib Os Requests.

(** A response that passes the status and header checks, whose body is
    not yet in the directory (or duplicate checking is off), and whose
    derived name can be written (no NUL, not "." or "..", not a
    subdirectory, at most 255 bytes, and the write goes through), is
    stored under that name and reported as a success that names the file,
    its size in KB and its path. *)
Theorem download_image_succeeds
    rt requests_get url directory check_duplicates fs r vmsg body filename :
  fs !! directory <> Some NotDir ->
  directory <> "" ->
  requests_get url = Return r ->
  raise_for_status r = Return tt ->
  validate_image_headers r = Return (true, vmsg) ->
  content r = Return body ->
  (check_duplicates = true ->
   forall name, ~ file_has_digest fs directory (sha256_hexdigest body) name) ->
  get_filename_from_url rt url (headers_get r "Content-Type") = Return filename ->
  all_chars (fun c => negb (is_nul c)) filename = true ->
  filename <> "." -> filename <> ".." ->
  entry_at fs directory filename <> Some Subdirectory ->
  (String.length filename <= name_max)%nat ->
  write_fault rt directory filename body = None ->
  (Z.of_nat (length body) < 2 ^ 53)%Z ->
  exists fs',
    download_image rt requests_get url directory check_duplicates fs
    = (Return (true, "✓ Successfully fetched: " +:+ filename
                       +:+ " (" +:+ format_1f (mkfloat (Z.of_nat (length body)) 10)
                       +:+ " KB)" +:+ newline
                       +:+ "✓ Image saved to " +:+ path_join directory filename),
       fs')
    /\ entry_at fs' directory filename = Some (RegularFile body)
    /\ (forall name, name <> filename ->
                     entry_at fs' directory name = entry_at fs directory name)
    /\ (forall d, d <> directory -> fs' !! d = fs !! d).
Proof.
  intros Hdir Hne Hget Hst Hval Hbody Hnodup Hname Hnul Hdot Hdots Hsub Hshort Hfault Hlen.
  destruct (created_lookup directory fs Hdir) as (entries & Hc & Hentries).
  assert (Hsub' : lookup_entry filename entries <> Some Subdirectory).
  { intros H. apply Hsub. rewrite <- (created_entry_at directory). unfold entry_at.
    rewrite Hc. exact H. }
  exists (<[directory := Dir (write_entry filename body entries)]> (created directory fs)).
  split; [|split; [|split]].
  - apply download_image_return.
    unfold download_image_body, bind, lift, ret.
    rewrite (makedirs_ok _ _ Hdir Hne), Hget, Hst, Hval, Hbody. cbn [negb].
    assert (Hbound : (2 ^ 53 < float_bound 10)%Z) by (vm_compute; reflexivity).
    destruct check_duplicates.
    + rewrite is_duplicate_eq by (rewrite Hc; discriminate).
      rewrite find_none_no_digest
        by (intros name Hd; apply file_has_digest_created in Hd;
            exact (Hnodup eq_refl name Hd)).
      rewrite Hname, (open_wb_write_ok rt _ _ _ _ _ Hc Hnul Hdot Hdots Hsub' Hshort Hfault).
      rewrite truediv_pow2_spec by lia.
      destruct (Z.ltb_spec (Z.abs (Z.of_nat (length body))) (float_bound 10)); [|lia].
      rewrite round53_nonneg_small by lia. reflexivity.
    + rewrite Hname, (open_wb_write_ok rt _ _ _ _ _ Hc Hnul Hdot Hdots Hsub' Hshort Hfault).
      rewrite truediv_pow2_spec by lia.
      destruct (Z.ltb_spec (Z.abs (Z.of_nat (length body))) (float_bound 10)); [|lia].
      rewrite round53_nonneg_small by lia. reflexivity.
  - unfold entry_at. rewrite lookup_insert_eq. apply lookup_write_entry.
  - intros name Hn. unfold entry_at at 1. rewrite lookup_insert_eq.
    rewrite lookup_write_entry_ne by assumption.
    rewrite <- (created_entry_at directory fs directory name).
    unfold entry_at. rewrite Hc. reflexivity.
  - intros d Hd. rewrite lookup_insert_ne by congruence. apply created_other. exact Hd.
Qed.


Lemma download_image_succeeds_witness :
  exists fs',
    download_image example_runtime example_network "http://x/a.png" "Fetched_Images" false
      example_directory
    = (Return (true, "✓ Successfully fetched: " +:+ "a.png"
                       +:+ " (" +:+ format_1f
                                      (mkfloat (Z.of_nat (length (list_byte_of_string "abc"))) 10)
                       +:+ " KB)" +:+ newline
                       +:+ "✓ Image saved to " +:+ path_join "Fetched_Images" "a.png"),
       fs')
    /\ entry_at fs' "Fetched_Images" "a.png" = Some (RegularFile (list_byte_of_string "abc"))
    /\ (forall name, name <> "a.png" ->
                     entry_at fs' "Fetched_Images" name
                     = entry_at example_directory "Fetched_Images" name)
    /\ (forall d, d <> "Fetched_Images" -> fs' !! d = example_directory !! d).
Proof.
  apply (download_image_succeeds example_runtime example_network "http://x/a.png"
           "Fetched_Images" false example_directory
           (image_response "image/png" (Some "3") (list_byte_of_string "abc"))
           "Valid image headers").
  - vm_compute. discriminate.
  - discriminate.
  - reflexivity.
  - reflexivity.
  - reflexivity.
  - reflexivity.
  - discriminate.
  - reflexivity.
  - reflexivity.
  - discriminate.
  - discriminate.
  - vm_compute. discriminate.
  - vm_compute. lia.
  - reflexivity.
  - vm_compute. reflexivity.
Defined.


(** A response with a status from 400 to 599 is reported as an HTTP error
    carrying the status and the reason phrase; its headers and body are
    not looked at and no file is written. *)
Theorem download_image_http_error rt requests_get url directory check_duplicates fs r :
  fs !! directory <> Some NotDir ->
  directory <> "" ->
  requests_get url = Return r ->
  (400 <= status_code r < 600)%Z ->
  download_image rt requests_get url directory check_duplicates fs
  = (Return (false, "✗ HTTP error: " +:+ str_of_int (status_code r)
                      +:+ " - " +:+ reason r),
     created directory fs).
Proof.
  intros Hdir Hne Hget Hst.
  apply (download_image_raise rt requests_get _ _ _ _
           (HTTPError (status_code r) (reason r))).
  unfold download_image_body, bind, lift.
  rewrite (makedirs_ok _ _ Hdir Hne), Hget. unfold raise_for_status.
  destruct (Z.leb_spec 400 (status_code r)); [|lia].
  destruct (Z.ltb_spec (status_code r) 600); [|lia]. reflexivity.
Qed.

(** An image response whose content-length [int] cannot convert makes the
    download fail with the text of the conversion error under "Unexpected
    error"; the body is not read and no file is written. *)
Theorem download_image_malformed_length
    rt requests_get url directory check_duplicates fs r cl text :
  fs !! directory <> Some NotDir ->
  directory <> "" ->
  requests_get url = Return r ->
  raise_for_status r = Return tt ->
  startswith (lower (content_type_of r)) "image/" = true ->
  headers_get r "Content-Length" = Some cl ->
  cl <> "" ->
  int_of_str cl = Raise (ValueError text) ->
  download_image rt requests_get url directory check_duplicates fs
  = (Return (false, "✗ Unexpected error: " +:+ text), created directory fs).
Proof.
  intros Hdir Hne Hget Hst Hct Hcl Hnonempty Hint.
  apply (download_image_raise rt requests_get _ _ _ _ (ValueError text)).
  unfold download_image_body, bind, lift.
  rewrite (makedirs_ok _ _ Hdir Hne), Hget, Hst.
  rewrite validate_image_headers_eq, Hct, Hcl, Hint. cbn [negb].
  apply truthy_true in Hnonempty. rewrite Hnonempty. reflexivity.
Qed.

(** When the target path exists and is not a directory, the download
    fails with a file error before any request is made: the outcome is
    the same whatever the network would answer, and nothing changes. *)
Theorem download_image_target_not_directory rt requests_get url directory check_duplicates fs :
  fs !! directory = Some NotDir ->
  download_image rt requests_get url directory check_duplicates fs
  = (Return (false, "✗ File error: Could not save image - [Errno 17] File exists: "
                      +:+ repr directory), fs).
Proof.
  intros Hdir.
  apply (download_image_raise rt requests_get _ _ _ _ (errno "17" "File exists" directory)).
  unfold download_image_body, bind, makedirs. rewrite Hdir. reflexivity.
Qed.

(** When the derived name cannot be opened for writing, because it is
    "." or "..", or names a subdirectory of the target, the download
    fails with a file error and every file stays as it was. *)
Theorem download_image_unwritable_name
    rt requests_get url directory check_duplicates fs r vmsg body filename :
  fs !! directory <> Some NotDir ->
  directory <> "" ->
  requests_get url = Return r ->
  raise_for_status r = Return tt ->
  validate_image_headers r = Return (true, vmsg) ->
  content r = Return body ->
  (check_duplicates = true ->
   forall name, ~ file_has_digest fs directory (sha256_hexdigest body) name) ->
  get_filename_from_url rt url (headers_get r "Content-Type") = Return filename ->
  all_chars (fun c => negb (is_nul c)) filename = true ->
  filename = "." \/ filename = ".." \/ entry_at fs directory filename = Some Subdirectory ->
  download_image rt requests_get url directory check_duplicates fs
  = (Return (false, "✗ File error: Could not save image - [Errno 21] Is a directory: "
                      +:+ repr (path_join directory filename)),
     created directory fs).
Proof.
  intros Hdir Hne Hget Hst Hval Hbody Hnodup Hname Hnul Hbad.
  destruct (created_lookup directory fs Hdir) as (entries & Hc & _).
  apply (download_image_raise rt requests_get _ _ _ _
           (errno "21" "Is a directory" (path_join directory filename))).
  assert (Hw : open_wb_write rt directory filename body (created directory fs)
               = (Raise (errno "21" "Is a directory" (path_join directory filename)),
                  created directory fs)).
  { unfold open_wb_write. rewrite Hnul, Hc. cbn [negb].
    destruct Hbad as [->|[->|Hsub]]; [reflexivity|reflexivity|].
    destruct (_ || _); [reflexivity|].
    rewrite <- (created_entry_at directory) in Hsub. unfold entry_at in Hsub.
    rewrite Hc in Hsub. rewrite Hsub. reflexivity. }
  unfold download_image_body, bind, lift, ret.
  rewrite (makedirs_ok _ _ Hdir Hne), Hget, Hst, Hval, Hbody. cbn [negb].
  destruct check_duplicates.
  - rewrite is_duplicate_eq by (rewrite Hc; discriminate).
    rewrite find_none_no_digest
      by (intros name Hd; apply file_has_digest_created in Hd;
          exact (Hnodup eq_refl name Hd)).
    rewrite Hname, Hw. reflexivity.
  - rewrite Hname, Hw. reflexivity.
Qed.

(** A download that does not report success writes nothing, unless the
    write of the file itself failed: either the file system is as before,
    up to the creation of the target directory, and every file of every
    directory is as it was; or the write to the opened file failed, the
    outcome is a file error with the text of that failure, the file holds
    what the failed write left of it, and every other file is as it was.
    (Bodies are taken to be shorter than [2 ^ 53] bytes, so that their
    size in KB is a float.) *)
Theorem download_image_failure_writes_nothing
    rt requests_get url directory check_duplicates fs message fs' :
  (forall r body,
      requests_get url = Return r -> content r = Return body ->
      (Z.of_nat (length body) < 2 ^ 53)%Z) ->
  download_image rt requests_get url directory check_duplicates fs
  = (Return (false, message), fs') ->
  ((fs' = fs \/ fs' = created directory fs)
   /\ forall d name, entry_at fs' d name = entry_at fs d name)
  \/ (exists r body filename stored text,
        requests_get url = Return r
        /\ content r = Return body
        /\ get_filename_from_url rt url (headers_get r "Content-Type") = Return filename
        /\ write_fault rt directory filename body = Some (stored, text)
        /\ message = "✗ File error: Could not save image - " +:+ text
        /\ entry_at fs' directory filename = Some (RegularFile stored)
        /\ (forall name, name <> filename ->
                         entry_at fs' directory name = entry_at fs directory name)
        /\ (forall d, d <> directory -> fs' !! d = fs !! d)).
Proof.
  intros Hlen Hrun.
  destruct (failed_download_state rt requests_get _ _ _ _ _ _ Hlen Hrun)
    as [->|[->|(r & body & filename & entries & stored & text
                & Hget & Hcontent & Hname & Hc & Hf & -> & ->)]].
  - left. split; [left; reflexivity|reflexivity].
  - left. split; [right; reflexivity|]. intros d name. apply created_entry_at.
  - right. exists r, body, filename, stored, text.
    split; [exact Hget|]. split; [exact Hcontent|]. split; [exact Hname|].
    split; [exact Hf|]. split; [reflexivity|]. split; [|split].
    + unfold entry_at. rewrite lookup_insert_eq. apply lookup_write_entry.
    + intros name Hn. unfold entry_at at 1. rewrite lookup_insert_eq.
      rewrite lookup_write_entry_ne by assumption.
      rewrite <- (created_entry_at directory fs directory name).
      unfold entry_at. rewrite Hc. reflexivity.
    + intros d Hd. rewrite lookup_insert_ne by congruence. apply created_other. exact Hd.
Qed.

Lemma download_image_http_error_witness :
  download_image example_runtime example_network "http://x/gone.png" "Fetched_Images" true ∅
  = (Return (false, "✗ HTTP error: " +:+ str_of_int 404 +:+ " - " +:+ "Not Found"),
     created "Fetched_Images" ∅).
Proof.
  apply (download_image_http_error example_runtime example_network "http://x/gone.png"
           "Fetched_Images" true ∅
           (mkresponse 404 "Not Found" [("Content-Type", "image/png")] (Return []))).
  - vm_compute. discriminate.
  - discriminate.
  - reflexivity.
  - cbn. lia.
Defined.

Lemma download_image_malformed_length_witness :
  download_image example_runtime
    (fun _ => Return (image_response "image/png" (Some "12 MB") []))
    "http://x/a.png" "Fetched_Images" true example_directory
  = (Return (false, "✗ Unexpected error: "
                      +:+ "invalid literal for int() with base 10: '12 MB'"),
     created "Fetched_Images" example_directory).
Proof.
  apply (download_image_malformed_length example_runtime _ "http://x/a.png"
           "Fetched_Images" true example_directory
           (image_response "image/png" (Some "12 MB") []) "12 MB").
  - vm_compute. discriminate.
  - discriminate.
  - reflexivity.
  - reflexivity.
  - reflexivity.
  - reflexivity.
  - discriminate.
  - reflexivity.
Defined.

Lemma download_image_target_not_directory_witness :
  download_image example_runtime example_network "http://x/a.png" "Fetched_Images" true
    {[ "Fetched_Images" := NotDir ]}
  = (Return (false, "✗ File error: Could not save image - [Errno 17] File exists: "
                      +:+ repr "Fetched_Images"),
     {[ "Fetched_Images" := NotDir ]}).
Proof. apply download_image_target_not_directory. apply lookup_singleton_eq. Defined.

Lemma download_image_unwritable_name_witness :
  download_image example_runtime
    (fun _ => Return (image_response "image/png" None (list_byte_of_string "abc")))
    "http://x/album/.." "Fetched_Images" true ∅
  = (Return (false, "✗ File error: Could not save image - [Errno 21] Is a directory: "
                      +:+ repr (path_join "Fetched_Images" "..")),
     created "Fetched_Images" ∅).
Proof.
  apply (download_image_unwritable_name example_runtime _ "http://x/album/.."
           "Fetched_Images" true ∅
           (image_response "image/png" None (list_byte_of_string "abc"))
           "Valid image headers" (list_byte_of_string "abc") "..").
  - vm_compute. discriminate.
  - discriminate.
  - reflexivity.
  - reflexivity.
  - reflexivity.
  - reflexivity.
  - intros _ name (data & Hdata & _). discriminate Hdata.
  - reflexivity.
  - reflexivity.
  - right. left. reflexivity.
Defined.

Lemma download_image_failure_writes_nothing_witness :
  ((example_after_full_disk = example_directory
    \/ example_after_full_disk = created "Fetched_Images" example_directory)
   /\ forall d name,
        entry_at example_after_full_disk d name = entry_at example_directory d name)
  \/ (exists r body filename stored text,
        example_network "http://y/a.png" = Return r
        /\ content r = Return body
        /\ get_filename_from_url full_disk_runtime "http://y/a.png"
             (headers_get r "Content-Type") = Return filename
        /\ write_fault full_disk_runtime "Fetched_Images" filename body
           = Some (stored, text)
        /\ "✗ File error: Could not save image - [Errno 28] No space left on device"
           = "✗ File error: Could not save image - " +:+ text
        /\ entry_at example_after_full_disk "Fetched_Images" filename
           = Some (RegularFile stored)
        /\ (forall name, name <> filename ->
                         entry_at example_after_full_disk "Fetched_Images" name
                         = entry_at example_directory "Fetched_Images" name)
        /\ (forall d, d <> "Fetched_Images" ->
                      example_after_full_disk !! d = example_directory !! d)).
Proof.
  apply (download_image_failure_writes_nothing full_disk_runtime example_network
           "http://y/a.png" "Fetched_Images" true example_directory
           "✗ File error: Could not save image - [Errno 28] No space left on device"
           example_after_full_disk).
  - intros r body [= <-] [= <-]. vm_compute. reflexivity.
  - vm_compute. reflexivity.
Defined.

End DownloadPaths.

(** ** Runs of the driver *)

Section DriverRuns.
Import Py Hashlib Urllib Os Requests.

(** A run of the driver touches only [Fetched_Images]: every other
    directory is as before, and no name that was in [Fetched_Images]
    disappears from it. *)
Theorem main_loop_frame rt requests_get urls t fs t' fs' :
  main_loop rt requests_get urls t fs = (Return t', fs') ->
  (forall d, d <> default_directory -> fs' !! d = fs !! d)
  /\ (forall name, In name (listed fs default_directory) ->
                   In name (listed fs' default_directory)).
Proof.
  revert t fs. induction urls as [|url rest IH]; intros t fs.
  - intros [= _ <-]. split; auto.
  - cbn [main_loop]. unfold bind.
    destruct (download_image rt requests_get url default_directory true fs)
      as [[outcome|e] fs1] eqn:Hd; [|discriminate].
    intros Hrest. apply IH in Hrest as [Hother Hnames].
    apply download_image_frame in Hd as [Hother1 Hnames1].
    split.
    + intros d Hne. rewrite Hother, Hother1 by assumption. reflexivity.
    + intros name Hin. apply Hnames, Hnames1, Hin.
Qed.

(** As long as no write to an opened file fails, the driver never adds
    more names to [Fetched_Images] than it counts successes, and its
    success counter never decreases.  (Bodies are taken to be shorter than
    [2 ^ 53] bytes.) *)
Theorem main_loop_files_bounded_by_successes rt requests_get urls t fs t' fs' :
  (forall directory name data, write_fault rt directory name data = None) ->
  (forall url r body,
      In url urls -> requests_get url = Return r -> content r = Return body ->
      (Z.of_nat (length body) < 2 ^ 53)%Z) ->
  main_loop rt requests_get urls t fs = (Return t', fs') ->
  (success_count t <= success_count t')%nat
  /\ (length (listed fs' default_directory) + success_count t
      <= length (listed fs default_directory) + success_count t')%nat.
Proof.
  intros Hfault. revert t fs. induction urls as [|url rest IH]; intros t fs Hlen.
  - intros [= <- <-]. lia.
  - cbn [main_loop]. unfold bind.
    destruct (download_image rt requests_get url default_directory true fs)
      as [[[success message]|e] fs1] eqn:Hd; [|discriminate].
    intros Hrest. apply IH in Hrest as [Hs Hl].
    2:{ intros u r body Hin. apply Hlen. right. exact Hin. }
    destruct success.
    + apply download_image_success_inv in Hd
        as (r & vmsg & body & filename & entries & _ & _ & _ & _ & _ & _ & _ & Hc & ->).
      rewrite (listed_write _ _ _ _ _ Hc), listed_created in Hl.
      cbn [count_outcome success_count] in *.
      destruct (existsb _ _); [lia|]. rewrite length_app in Hl. cbn in Hl. lia.
    + apply failed_download_state in Hd.
      2:{ intros r body. apply Hlen. left. reflexivity. }
      assert (Hsame : listed fs1 default_directory = listed fs default_directory).
      { destruct Hd as [->|[->|(r & body & filename & entries & stored & text
                                & _ & _ & _ & _ & Hf & _)]];
          [reflexivity|apply listed_created|].
        rewrite Hfault in Hf. discriminate. }
      rewrite Hsame in Hl.
      assert (success_count (count_outcome t (false, message)) = success_count t).
      { unfold count_outcome. destruct (str_in _ _); reflexivity. }
      lia.
Qed.


Lemma main_loop_frame_witness :
  (forall d, d <> default_directory -> example_after_second !! d = example_directory !! d)
  /\ (forall name, In name (listed example_directory default_directory) ->
                   In name (listed example_after_second default_directory)).
Proof.
  apply (main_loop_frame example_runtime example_network
           ["http://x/a.png"; "http://y/a.png"] (mktally 0 0 0) example_directory
           (mktally 1 1 0)).
  vm_compute. reflexivity.
Defined.

Lemma main_loop_files_bounded_by_successes_witness :
  (success_count (mktally 0 0 0) <= success_count (mktally 1 1 0))%nat
  /\ (length (listed example_after_second default_directory) + success_count (mktally 0 0 0)
      <= length (listed example_directory default_directory)
         + success_count (mktally 1 1 0))%nat.
Proof.
  apply (main_loop_files_bounded_by_successes example_runtime example_network
           ["http://x/a.png"; "http://y/a.png"] (mktally 0 0 0) example_directory
           (mktally 1 1 0) example_after_second).
  - reflexivity.
  - intros url r body [<-|[<-|[]]] [= <-] [= <-]; vm_compute; reflexivity.
  - vm_compute. reflexivity.
Defined.

End DriverRuns.

(** ** The prompts *)

Section PromptRuns.
Import Py Hashlib Urllib Os Requests.

(** Multiple mode.  When the answer to the first prompt is "M" once
    stripped and upper-cased, the URLs processed are the stripped lines up
    to the first blank one, in order; every one of them is counted once,
    and the lines after the blank one are left unread. *)
Theorem main_interactive_multiple rt requests_get answer lines blank rest fs :
  upper (strip answer) = "M" ->
  Forall (fun line => strip line <> "") lines ->
  lines <> [] ->
  strip blank = "" ->
  exists t fs',
    main_interactive rt requests_get (answer :: lines ++ blank :: rest) fs
    = (Return (Some t, rest), fs')
    /\ main_loop rt requests_get (map strip lines) (mktally 0 0 0) fs = (Return t, fs')
    /\ tally_total t = length lines.
Proof.
  intros Hmode Hlines Hne Hblank.
  destruct (main_loop_total rt requests_get (map strip lines) (mktally 0 0 0) fs)
    as (t & fs' & Hloop & Ht).
  exists t, fs'. split; [|split; [exact Hloop|]].
  - unfold main_interactive, bind, lift, read_urls, input. cbn [rbind].
    rewrite Hmode. cbn [String.eqb Ascii.eqb Bool.eqb andb].
    rewrite (read_many_until_blank _ _ _ Hlines Hblank).
    unfold main. destruct lines as [|line lines']; [congruence|].
    cbn [map]. unfold bind, ret. cbn [map] in Hloop. rewrite Hloop. reflexivity.
  - rewrite Ht, length_map. reflexivity.
Qed.

Lemma main_interactive_multiple_witness :
  exists t fs',
    main_interactive example_runtime example_network
      (" m " :: [" http://x/a.png"; "http://x/page  "] ++ "   " :: ["unread"]) ∅
    = (Return (Some t, ["unread"]), fs')
    /\ main_loop example_runtime example_network
         (map strip [" http://x/a.png"; "http://x/page  "]) (mktally 0 0 0) ∅
       = (Return t, fs')
    /\ tally_total t = length [" http://x/a.png"; "http://x/page  "].
Proof.
  apply main_interactive_multiple.
  - reflexivity.
  - repeat constructor; discriminate.
  - discriminate.
  - reflexivity.
Defined.

(** Multiple mode, input ending before a blank line: [input] raises
    [EOFError], which [main] does not catch; none of the URLs already
    typed is fetched and the file system is untouched. *)
Theorem main_interactive_eof rt requests_get answer lines fs :
  upper (strip answer) = "M" ->
  Forall (fun line => strip line <> "") lines ->
  main_interactive rt requests_get (answer :: lines) fs = (Raise eof_error, fs).
Proof.
  intros Hmode Hlines.
  unfold main_interactive, bind, lift, read_urls, input. cbn [rbind].
  rewrite Hmode. cbn [String.eqb Ascii.eqb Bool.eqb andb].
  rewrite (read_many_eof _ Hlines). reflexivity.
Qed.

Lemma main_interactive_eof_witness :
  main_interactive example_runtime example_network
    ["M"; "http://x/a.png"; "http://y/a.png"] ∅
  = (Raise eof_error, ∅).
Proof.
  apply main_interactive_eof; [reflexivity|].
  repeat constructor; discriminate.
Defined.

(** A blank first URL ends the run in either mode: whatever the answer
    to the mode prompt, if the next line is blank once stripped, [main]
    returns without a tally and nothing is touched, not even the target
    directory is created. *)
Theorem main_interactive_nothing_to_do rt requests_get answer blank rest fs :
  strip blank = "" ->
  main_interactive rt requests_get (answer :: blank :: rest) fs
  = (Return (None, rest), fs).
Proof.
  intros Hblank. unfold main_interactive, bind, lift, read_urls, input. cbn [rbind].
  destruct (String.eqb (upper (strip answer)) "M").
  - cbn [read_many]. rewrite Hblank. reflexivity.
  - cbn [rbind]. rewrite Hblank. reflexivity.
Qed.

Lemma main_interactive_nothing_to_do_witness :
  main_interactive example_runtime example_network ["M"; "  "; "more"] example_directory
  = (Return (None, ["more"]), example_directory).
Proof. apply main_interactive_nothing_to_do. reflexivity. Defined.

(** Single mode is every answer but "M" (once stripped and upper-cased):
    the next line, stripped, is the one URL processed with duplicate
    checking into [Fetched_Images], and its outcome is the whole tally. *)
Theorem main_interactive_single rt requests_get answer line rest fs :
  upper (strip answer) <> "M" ->
  strip line <> "" ->
  exists outcome fs',
    download_image rt requests_get (strip line) default_directory true fs
    = (Return outcome, fs')
    /\ main_interactive rt requests_get (answer :: line :: rest) fs
       = (Return (Some (count_outcome (mktally 0 0 0) outcome), rest), fs').
Proof.
  intros Hmode Hurl.
  assert (Heq : String.eqb (upper (strip answer)) "M" = false)
    by (apply String.eqb_neq; exact Hmode).
  destruct (download_image_total rt requests_get (strip line) default_directory true fs)
    as (outcome & fs' & Hd).
  exists outcome, fs'. split; [exact Hd|].
  unfold main_interactive, bind, lift, read_urls, input. cbn [rbind].
  rewrite Heq. cbn [rbind]. apply truthy_true in Hurl. rewrite Hurl.
  unfold main. cbn [main_loop]. unfold bind, ret. rewrite Hd. reflexivity.
Qed.

Lemma main_interactive_single_witness :
  exists outcome fs',
    download_image example_runtime example_network (strip " http://x/a.png ")
      default_directory true ∅
    = (Return outcome, fs')
    /\ main_interactive example_runtime example_network ["yes"; " http://x/a.png "] ∅
       = (Return (Some (count_outcome (mktally 0 0 0) outcome), []), fs').
Proof. apply main_interactive_single; discriminate. Defined.

End PromptRuns.
